(** * EdgeFleet route optimisation: a shallow embedding and its properties

  The development follows the Python sources of the prototype:

  - [ml/route_optimization/fuel_calculator.py]     ([FuelCalculator])
  - [ml/route_optimization/optimizer.py]           ([RouteOptimizer])
  - [backend/services/camera_feed_manager.py]      ([CameraFeedManager])
  - [backend/ai_agents/route_optimization_agent.py] ([RouteOptimizationAgent])
  - [ml/route_optimization/graph_builder.py]       ([RouteGraphBuilder])
  - [backend/ml/route_optimizer.py]                ([OrToolsRouteOptimizer])

  Python floats are idealised: by rationals ([Q]) where the code only
  adds, multiplies, divides and compares, and by real numbers ([R]) where
  it calls [sqrt], [sin], [cos], [asin] or [atan2].  Dictionaries read
  through [.get(key, default)] are records of optional fields or [gmap]s;
  a Python call either returns a value or raises an exception
  ([Py.result]).  Strings are UTF-8 bytes; the Unicode case mapping behind
  [str.lower()] is a parameter of every function that lower-cases
  ([Py.CaseMapping]).  The queue of a camera is shared between threads:
  a push is modelled together with what the worker threads do to the queue
  in the meantime ([CameraFeedManager.interleaving]). *)

From Stdlib Require Import Ascii QArith Qminmax Qabs Reals Lra Lia Psatz.
From stdpp Require Import gmap strings list.

(** ** Python primitives shared by the modules *)

Module Py.

(** The exceptions that the modelled code can raise. *)
Inductive exn : Type :=
| NameError (name : string)
| ZeroDivisionError
| IndexError
| TypeError
| ValueError
| KeyError (key : string)
| QueueFull
| QueueEmpty
| RuntimeError (message : string).

(** Outcome of a call: a returned value, a raised exception, or a loop
    that is still running when the iteration budget of the model is used
    up. *)
Inductive result (A : Type) : Type :=
| Returned (a : A)
| Raised (e : exn)
| OutOfFuel.
Arguments Returned {A} a.
Arguments Raised {A} e.
Arguments OutOfFuel {A}.

Definition bind {A B} (k : A -> result B) (r : result A) : result B :=
  match r with
  | Returned a => k a
  | Raised e => Raised e
  | OutOfFuel => OutOfFuel
  end.

(** Reading a name: bound names give their value, any other name raises
    [NameError]. *)
Definition load_name {V} (scope : gmap string V) (name : string) : result V :=
  match scope !! name with
  | Some v => Returned v
  | None => Raised (NameError name)
  end.

(** The slices [l[:m]] and [l[m:]]; a negative bound counts from the end
    and bounds outside the list are clamped. *)
Definition slice_to {A} (l : list A) (m : Z) : list A :=
  if (0 <=? m)%Z then take (Z.to_nat m) l
  else take (length l - Z.to_nat (- m)) l.

Definition slice_from {A} (l : list A) (m : Z) : list A :=
  if (0 <=? m)%Z then drop (Z.to_nat m) l
  else drop (length l - Z.to_nat (- m)) l.

(** [str.lower()].  A Python string is held as its UTF-8 bytes, so its
    characters are all ASCII exactly when every byte is below 128
    ([str.isascii()]).  On such text [str.lower()] maps A-Z to a-z and
    leaves every other character.  On any other text it applies the case
    mapping of the Unicode database of the runtime (the Kelvin sign U+212A,
    for one, becomes k): that mapping is a parameter,
    [unicode_lower]. *)
Class CaseMapping := unicode_lower : string -> string.

Definition lower_ascii (c : ascii) : ascii :=
  let n := N_of_ascii c in
  if ((65 <=? n) && (n <=? 90))%N then ascii_of_N (n + 32) else c.

Fixpoint isascii (s : string) : bool :=
  match s with
  | EmptyString => true
  | String c s' => (N_of_ascii c <? 128)%N && isascii s'
  end.

Fixpoint lower_ascii_text (s : string) : string :=
  match s with
  | EmptyString => EmptyString
  | String c s' => String (lower_ascii c) (lower_ascii_text s')
  end.

Definition lower `{!CaseMapping} (s : string) : string :=
  if isascii s then lower_ascii_text s else unicode_lower s.

(** A case mapping that leaves text with other characters as it is; it
    serves to evaluate the functions on ASCII text, where the mapping is
    never consulted. *)
Definition ascii_only : CaseMapping := fun s => s.

(** [max(a, b)] on numbers: the first argument wins unless the second is
    strictly greater. *)
Definition max (a b : Q) : Q := if Qlt_le_dec a b then b else a.

(** [min(a, b)]: the first argument wins unless the second is strictly
    smaller. *)
Definition min (a b : Q) : Q := if Qlt_le_dec b a then b else a.

(** [sum(l)] on numbers. *)
Definition sum (l : list Q) : Q := foldr Qplus 0%Q l.

(** [dict.get(key, default)]. *)
Definition get {V} (m : gmap string V) (k : string) (d : V) : V :=
  default d (m !! k).

End Py.

#[global] Instance Q_inhabited : Inhabited Q := populate 0%Q.

#[global] Instance result_bind : MBind Py.result := @Py.bind.
#[global] Instance result_ret : MRet Py.result := @Py.Returned.

(** ** [fuel_calculator.py] *)

Module FuelCalculator.
Open Scope Q_scope.

(** [self.base_consumption], litres per 100 km. *)
Definition base_consumption : gmap string Q :=
  {[ "sedan" := 7.5; "suv" := 10.0; "truck" := 25.0; "van" := 12.0 ]}.

(** [self.factors]. *)
Definition factors_load : Q := 0.001.
Definition factors_speed_optimal : Q := 60.
Definition factors_speed_penalty : Q := 0.1.
Definition factors_elevation : Q := 0.1.
Definition factors_road_condition : gmap string Q :=
  {[ "excellent" := 0.0; "good" := 0.1; "average" := 0.2;
     "poor" := 0.4; "terrible" := 0.7 ]}.

(** The dictionary returned by [calculate_fuel_consumption]. *)
Record consumption := {
  base_consumption_l_per_100km : Q;
  adjusted_consumption_l_per_100km : Q;
  total_fuel_liters : Q;
  factor_load : Q;
  factor_speed : Q;
  factor_elevation : Q;
  factor_road_condition : Q;
  emissions_kg_co2 : Q
}.

Definition calculate_fuel_consumption `{!Py.CaseMapping}
    (distance_km : Q) (vehicle_type : string) (load_kg avg_speed_kmh
     elevation_gain_m : Q) (road_condition : string) : consumption :=
  let base := Py.get base_consumption (Py.lower vehicle_type) 10.0 in
  let load_factor := 1 + (factors_load * load_kg) in
  let speed_diff := Py.max 0 (avg_speed_kmh - factors_speed_optimal) in
  let speed_factor := 1 + (speed_diff * factors_speed_penalty / 100) in
  let elevation_factor :=
    1 + ((elevation_gain_m / 10) * factors_elevation / 100) in
  let road_factor :=
    1 + Py.get factors_road_condition (Py.lower road_condition) 0.2 in
  let adjusted_consumption :=
    base * load_factor * speed_factor * elevation_factor * road_factor in
  let total_fuel := (adjusted_consumption / 100) * distance_km in
  {| base_consumption_l_per_100km := base;
     adjusted_consumption_l_per_100km := adjusted_consumption;
     total_fuel_liters := total_fuel;
     factor_load := load_factor;
     factor_speed := speed_factor;
     factor_elevation := elevation_factor;
     factor_road_condition := road_factor;
     emissions_kg_co2 := total_fuel * 2.31 |}.

(** The rate table as the specification words it: four known vehicle
    types, any other type gets the default rate. *)
Definition base_rate (vehicle_type : string) : Q :=
  if String.eqb vehicle_type "sedan" then 7.5
  else if String.eqb vehicle_type "suv" then 10.0
  else if String.eqb vehicle_type "truck" then 25.0
  else if String.eqb vehicle_type "van" then 12.0
  else 10.0.

End FuelCalculator.

(** ** [optimizer.py] *)

Module RouteOptimizer.
Open Scope Q_scope.

(** A [(lat, lon)] tuple. *)
Definition point : Type := Q * Q.

(** A vehicle dictionary: ['id'], ['type'] and the optional ['load_kg']. *)
Record vehicle := {
  vehicle_id_of : string;
  vehicle_type_of : string;
  vehicle_load_kg : option Q
}.

(** One entry of ['routes'] in the returned dictionary. *)
Record route := {
  route_vehicle_id : string;
  route_vehicle_type : string;
  route_stops : list point;
  route_distance_km : Q;
  route_time_minutes : Q;
  route_fuel_liters : Q;
  route_emissions_kg : Q
}.

(** The ['summary'] of the returned dictionary. *)
Record summary := {
  total_distance_km : Q;
  total_time_minutes : Q;
  total_fuel_liters : Q;
  total_emissions_kg : Q;
  num_vehicles_used : nat
}.

(** The dictionary returned by [optimize_routes]: it has the two keys
    ['routes'] and ['summary'] and no other. *)
Record solution := {
  routes : list route;
  solution_summary : summary
}.

(** The dictionary returned by [_calculate_route_metrics]. *)
Record metrics := {
  metrics_distance_km : Q;
  metrics_time_minutes : Q;
  metrics_fuel_liters : Q;
  metrics_emissions_kg : Q
}.

(** *** [_cluster_stops] *)

Section Cluster.
Context {A : Type}.

(** Round-robin assignment: [clusters[i % num_clusters].append(stop)] for
    the stops from position [i] on. *)
Fixpoint round_robin (num_clusters : nat) (i : nat) (stops : list A)
    (clusters : list (list A)) : Py.result (list (list A)) :=
  match stops with
  | [] => Py.Returned clusters
  | stop :: rest =>
      if Nat.eqb num_clusters 0 then Py.Raised Py.ZeroDivisionError
      else round_robin num_clusters (S i) rest
             (alter (fun c => c ++ [stop]) (i mod num_clusters)%nat clusters)
  end.

(** The loop [while len(cluster) > max_per_cluster], one unit of fuel per
    iteration; [None] when the fuel does not suffice. *)
Fixpoint split_cluster (fuel : nat) (max_per_cluster : Z)
    (final_clusters : list (list A)) (cluster : list A)
    : option (list (list A) * list A) :=
  if (max_per_cluster <? Z.of_nat (length cluster))%Z then
    match fuel with
    | O => None
    | S fuel' =>
        split_cluster fuel' max_per_cluster
          (final_clusters ++ [Py.slice_to cluster max_per_cluster])
          (Py.slice_from cluster max_per_cluster)
    end
  else Some (final_clusters, cluster).

(** The loop [for cluster in clusters] that builds [final_clusters]. *)
Fixpoint enforce_max (fuel : nat) (max_per_cluster : Z)
    (clusters : list (list A)) (final_clusters : list (list A))
    : Py.result (list (list A)) :=
  match clusters with
  | [] => Py.Returned final_clusters
  | cluster :: rest =>
      match split_cluster fuel max_per_cluster final_clusters cluster with
      | None => Py.OutOfFuel
      | Some (final_clusters', cluster') =>
          enforce_max fuel max_per_cluster rest
            (match cluster' with
             | [] => final_clusters'
             | _ :: _ => final_clusters' ++ [cluster']
             end)
      end
  end.

Definition _cluster_stops (fuel : nat) (stops : list A) (num_clusters : nat)
    (max_per_cluster : Z) : Py.result (list (list A)) :=
  clusters ← round_robin num_clusters 0 stops (replicate num_clusters []);
  enforce_max fuel max_per_cluster clusters [].

End Cluster.

(** *** The travelling-salesman helpers *)

(** [itertools.permutations(l)]: every ordering of [l], in the order of the
    positions of [l]; [n] bounds the length of [l]. *)
Fixpoint permutations_upto {A} (n : nat) (l : list A) : list (list A) :=
  match n with
  | O => [[]]
  | S n' =>
      match l with
      | [] => [[]]
      | _ :: _ =>
          flat_map
            (fun i =>
               match l !! i with
               | Some x =>
                   map (cons x) (permutations_upto n' (take i l ++ drop (S i) l))
               | None => []
               end)
            (seq 0 (length l))
      end
  end.

Definition permutations {A} (l : list A) : list (list A) :=
  permutations_upto (length l) l.

Section Tsp.
Context `{!Py.CaseMapping}.

(** [_calculate_distance]: the geodesic distance of [geopy], in km. *)
Variable _calculate_distance : point -> point -> Q.

(** [stops[i]] for an index of the list. *)
Definition at_index (stops : list point) (i : nat) : point :=
  stops !!! i.

(** The sum over [i in range(len(path) - 1)] of the distances between
    [stops[path[i]]] and [stops[path[i+1]]]. *)
Fixpoint path_distance (stops : list point) (path : list nat) : Q :=
  match path with
  | i :: ((j :: _) as rest) =>
      _calculate_distance (at_index stops i) (at_index stops j)
      + path_distance stops rest
  | _ => 0
  end.

(** [distance < best_distance], where [None] is [float('inf')]. *)
Definition below (distance : Q) (best_distance : option Q) : bool :=
  match best_distance with
  | None => true
  | Some b => if Qlt_le_dec distance b then true else false
  end.

(** Lines 144 to 162 of [_brute_force_tsp]: the search over the
    permutations of [range(1, num_stops)]. *)
Definition brute_force_search (stops : list point) : option (list nat) :=
  let num_stops := length stops in
  let step (best : option (list nat) * option Q) (perm : list nat) :=
    let path := [0%nat] ++ perm ++ [0%nat] in
    let distance := path_distance stops path in
    if below distance best.2 then (Some path, Some distance) else best in
  let best := fold_left step (permutations (seq 1 (num_stops - 1))) (None, None) in
  (* best_path[1:-1] *)
  option_map (fun best_path => Py.slice_to (drop 1 best_path) (-1)) best.1.

(** [_brute_force_tsp].  Its second statement reads [num_steps], a name
    that is bound nowhere: the only integer local is [num_stops]. *)
Definition _brute_force_tsp (stops : list point) : Py.result (list nat) :=
  let num_stops := length stops in
  let scope : gmap string nat := {[ "num_stops" := num_stops ]} in
  num_steps ← Py.load_name scope "num_steps";
  if (num_steps <=? 1)%nat then Py.Returned (seq 0 num_steps)
  else
    match brute_force_search stops with
    | Some order => Py.Returned order
    | None => Py.Raised Py.TypeError
    end.

(** The inner loop of [_nearest_neighbor_tsp] over [j in range(num_stops)];
    the state is [(nearest, min_dist)]. *)
Definition nearest_step (stops : list point) (visited : list bool)
    (last : nat) (st : option nat * option Q) (j : nat)
    : option nat * option Q :=
  if negb (visited !!! j) then
    let dist := _calculate_distance (at_index stops last) (at_index stops j) in
    if below dist st.2 then (Some j, Some dist) else st
  else st.

Definition find_nearest (stops : list point) (visited : list bool)
    (last : nat) : option nat :=
  (fold_left (nearest_step stops visited last) (seq 0 (length stops))
     (None, None)).1.

(** The outer loop [for _ in range(1, num_stops)], [k] iterations; the
    state is [(path, visited)]. *)
Fixpoint nearest_neighbor_loop (k : nat) (stops : list point)
    (path : list nat) (visited : list bool) : list nat :=
  match k with
  | O => path
  | S k' =>
      let last := List.last path 0%nat in
      match find_nearest stops visited last with
      | Some nearest =>
          nearest_neighbor_loop k' stops (path ++ [nearest])
            (<[nearest := true]> visited)
      | None => nearest_neighbor_loop k' stops path visited
      end
  end.

Definition _nearest_neighbor_tsp (stops : list point)
    : Py.result (list nat) :=
  let num_stops := length stops in
  let visited := replicate num_stops false in
  let path := [0%nat] in
  (* visited[0] = True *)
  if Nat.eqb num_stops 0 then Py.Raised Py.IndexError
  else
    let visited := <[0%nat := true]> visited in
    Py.Returned
      (drop 1 (nearest_neighbor_loop (num_stops - 1) stops path visited)).

Definition _solve_tsp (stops : list point) : Py.result (list nat) :=
  let num_stops := length stops in
  if (num_stops <=? 8)%nat then _brute_force_tsp stops
  else _nearest_neighbor_tsp stops.

(** *** [_calculate_route_metrics] and [optimize_routes] *)

(** [self.graph_builder.get_shortest_path]: the node path and its weight,
    or [None] when the road network has no path. *)
Variable get_shortest_path : point -> point -> option (list Z * Q).

(** The pairs [(route[i], route[i+1])] for [i in range(len(route) - 1)]:
    the legs a route is scored over. *)
Definition legs (route : list point) : list (point * point) :=
  zip route (drop 1 route).

(** The legs between which the road network has a path, and the weight
    of that path. *)
Definition connected (leg : point * point) : bool :=
  match get_shortest_path leg.1 leg.2 with
  | Some _ => true
  | None => false
  end.

Definition segment_time (leg : point * point) : Q :=
  match get_shortest_path leg.1 leg.2 with
  | Some (_, t) => t
  | None => 0
  end.

Definition _calculate_route_metrics (v : vehicle) (route : list point)
    (time_of_day : string) : metrics :=
  let step (acc : Q * Q) (leg : point * point) :=
    let '(origin, dest) := leg in
    match get_shortest_path origin dest with
    | Some (_, segment_time) =>
        let segment_distance := _calculate_distance origin dest in
        (acc.1 + segment_distance, acc.2 + segment_time)
    | None => acc
    end in
  let '(total_distance, total_time) := fold_left step (legs route) (0, 0) in
  let fuel_info :=
    FuelCalculator.calculate_fuel_consumption total_distance
      (vehicle_type_of v) (default 0 (vehicle_load_kg v)) 50 0 "average" in
  {| metrics_distance_km := total_distance;
     metrics_time_minutes := total_time / 60;
     metrics_fuel_liters := FuelCalculator.total_fuel_liters fuel_info;
     metrics_emissions_kg := FuelCalculator.emissions_kg_co2 fuel_info |}.

(** The accumulators of the loop of [optimize_routes]. *)
Record totals := {
  optimized_routes : list route;
  acc_distance : Q;
  acc_time : Q;
  acc_fuel : Q
}.

(** One iteration of [for i, (vehicle, vehicle_stops) in
    enumerate(zip(vehicles, clusters))]. *)
Definition route_vehicle (depot : point) (time_of_day : string)
    (acc : totals) (vs : vehicle * list point) : Py.result totals :=
  let '(v, vehicle_stops) := vs in
  match vehicle_stops with
  | [] => Py.Returned acc
  | _ :: _ =>
      let route_stops := [depot] ++ vehicle_stops ++ [depot] in
      optimal_order ← _solve_tsp route_stops;
      let ordered := at_index route_stops <$> optimal_order in
      let route_info := _calculate_route_metrics v ordered time_of_day in
      Py.Returned
        {| optimized_routes :=
             optimized_routes acc ++
             [{| route_vehicle_id := vehicle_id_of v;
                 route_vehicle_type := vehicle_type_of v;
                 route_stops := ordered;
                 route_distance_km := metrics_distance_km route_info;
                 route_time_minutes := metrics_time_minutes route_info;
                 route_fuel_liters := metrics_fuel_liters route_info;
                 route_emissions_kg := metrics_emissions_kg route_info |}];
           acc_distance := acc_distance acc + metrics_distance_km route_info;
           acc_time := acc_time acc + metrics_time_minutes route_info;
           acc_fuel := acc_fuel acc + metrics_fuel_liters route_info |}
  end.

Fixpoint route_vehicles (depot : point) (time_of_day : string)
    (pairs : list (vehicle * list point)) (acc : totals)
    : Py.result totals :=
  match pairs with
  | [] => Py.Returned acc
  | vs :: rest =>
      acc' ← route_vehicle depot time_of_day acc vs;
      route_vehicles depot time_of_day rest acc'
  end.

Definition optimize_routes (fuel : nat) (vehicles : list vehicle)
    (stops : list point) (depot : point) (time_of_day : string)
    (max_stops_per_vehicle : Z) : Py.result solution :=
  let num_vehicles := length vehicles in
  clusters ← _cluster_stops fuel stops num_vehicles max_stops_per_vehicle;
  acc ← route_vehicles depot time_of_day (zip vehicles clusters)
          {| optimized_routes := []; acc_distance := 0; acc_time := 0;
             acc_fuel := 0 |};
  Py.Returned
    {| routes := optimized_routes acc;
       solution_summary :=
         {| total_distance_km := acc_distance acc;
            total_time_minutes := acc_time acc;
            total_fuel_liters := acc_fuel acc;
            total_emissions_kg := acc_fuel acc * 2.31;
            num_vehicles_used :=
              length (filter (fun r => (2 < length (route_stops r))%nat)
                        (optimized_routes acc)) |} |}.

End Tsp.

(** *** Invariants and relations used to state the properties *)

(** The invariant of the outer loop: [visited] marks exactly the indices on
    [path], which has no repetition and starts at index 0. *)
Record nn_inv (n : nat) (path : list nat) (visited : list bool) : Prop := {
  nn_length : length visited = n;
  nn_marks : forall j, (j < n)%nat -> visited !!! j = true <-> j ∈ path;
  nn_nodup : NoDup path;
  nn_bound : forall j, j ∈ path -> (j < n)%nat;
  nn_head : head path = Some 0%nat
}.

(** What one iteration of the loop of [optimize_routes] appends when it
    returns. *)
Definition routed (depot : point) (r : route) (vc : vehicle * list point)
    : Prop :=
  route_vehicle_id r = vehicle_id_of vc.1
  /\ route_stops r ≡ₚ vc.2 ++ [depot].

Section Relations.
Variable dist : point -> point -> Q.

(** The distance between the stops at two indices. *)
Definition hop (stops : list point) (i j : nat) : Q :=
  dist (at_index stops i) (at_index stops j).

(** Index [j] is a candidate, no candidate is nearer to index [i], and every
    candidate of a lower index is farther away. *)
Definition nearest_among (stops : list point) (i j : nat)
    (candidate : nat -> Prop) : Prop :=
  candidate j
  /\ forall k, candidate k ->
       hop stops i j <= hop stops i k
       /\ ((k < j)%nat -> hop stops i j < hop stops i k).

(** Every index of the path after the first is the nearest to its
    predecessor among the indices that are not on the path before it. *)
Definition greedy_path (stops : list point) (path : list nat) : Prop :=
  forall i j, path !! S i = Some j ->
    nearest_among stops (path !!! i) j
      (fun k => (k < length stops)%nat /\ k ∉ take (S i) path).

(** What the inner loop of [_nearest_neighbor_tsp] holds after the indices
    below [a]. *)
Definition scanned (stops : list point) (visited : list bool) (last a : nat)
    (st : option nat * option Q) : Prop :=
  match st with
  | (None, None) => forall k, (k < a)%nat -> visited !!! k = true
  | (Some j, Some d) =>
      d = hop stops last j /\ (j < a)%nat /\ visited !!! j = false
      /\ forall k, (k < a)%nat -> visited !!! k = false ->
           hop stops last j <= hop stops last k
           /\ ((k < j)%nat -> hop stops last j < hop stops last k)
  | _ => False
  end.


End Relations.

(** *** Sample collaborators and inputs

    The geodesic distance and the road network are outside the repository.
    To run the model on concrete inputs, the distance is instantiated with
    the planar taxicab distance and the road network with one that has a
    path between any two points. *)

Definition taxicab (p q : point) : Q := Qabs (p.1 - q.1) + Qabs (p.2 - q.2).

Definition direct_road (origin dest : point) : option (list Z * Q) :=
  Some ([], 72 * taxicab origin dest).

Definition sample_depot : point := (0, 0).

Definition sample_vehicle : vehicle :=
  {| vehicle_id_of := "Truck-1"; vehicle_type_of := "truck";
     vehicle_load_kg := None |}.

(** Seven stops, then an eighth one. *)
Definition sample_cluster : list point :=
  [(1, 0); (2, 0); (3, 0); (4, 0); (5, 0); (6, 0); (7, 0)].

Definition sample_stops : list point := sample_cluster ++ [(8, 0)].

(** The statement that a solution accounts for every stop of the request:
    each stop is in the stop sequence of some route.  (The returned
    dictionary has no list of unassigned stops.) *)
Definition every_stop_routed (stops : list point) (sol : solution) : Prop :=
  forall s, s ∈ stops -> exists r, r ∈ routes sol /\ s ∈ route_stops r.

End RouteOptimizer.

(** ** [camera_feed_manager.py] *)

Module CameraFeedManager.

(** *** [queue.Queue] *)

(** A queue with its [maxsize] and its items, oldest first.  A [maxsize]
    of zero or less means an unbounded queue. *)
Record queue (A : Type) := {
  maxsize : Z;
  items : list A
}.
Arguments maxsize {A} q.
Arguments items {A} q.

Section Queue.
Context {A : Type}.

Definition new_queue (maxsize : Z) : queue A :=
  {| maxsize := maxsize; items := [] |}.

Definition full (q : queue A) : bool :=
  ((0 <? maxsize q) && (maxsize q <=? Z.of_nat (length (items q))))%Z.

Definition put_nowait (q : queue A) (x : A) : Py.result (queue A) :=
  if full q then Py.Raised Py.QueueFull
  else Py.Returned {| maxsize := maxsize q; items := items q ++ [x] |}.

Definition get_nowait (q : queue A) : Py.result (A * queue A) :=
  match items q with
  | [] => Py.Raised Py.QueueEmpty
  | x :: rest => Py.Returned (x, {| maxsize := maxsize q; items := rest |})
  end.

(** The queue of a camera is shared by its capture thread and by the
    workers of [_process_queues], which take frames from it with
    [get_nowait].  [taken_by_workers n q] is the queue after [n] such calls
    of the workers: each takes the oldest frame, or finds the queue
    empty. *)
Definition taken_by_workers (n : nat) (q : queue A) : queue A :=
  {| maxsize := maxsize q; items := drop n (items q) |}.

(** What the workers do while the capture thread is inside its handler
    of [queue.Full]: the number of their [get_nowait] calls between the
    failed [put_nowait] and the [get_nowait] of the handler, and between
    that [get_nowait] and the second [put_nowait]. *)
Record interleaving := {
  before_get : nat;
  before_put : nat
}.

Definition no_worker : interleaving := {| before_get := 0; before_put := 0 |}.

(** Lines 120 to 130 of [_capture_frames]: the frame is put without
    blocking; when the queue is full the oldest frame is taken out and the
    put is tried again.  [queue.Empty] in the handler is passed over (the
    workers have emptied the queue in the meantime, and the frame is not
    queued); any other exception leaves the block. *)
Definition enqueue_frame (w : interleaving) (q : queue A) (frame_data : A)
    : Py.result (queue A) :=
  match put_nowait q frame_data with
  | Py.Raised Py.QueueFull =>
      let q0 := taken_by_workers (before_get w) q in
      match get_nowait q0 with
      | Py.Returned (_, q1) =>
          put_nowait (taken_by_workers (before_put w) q1) frame_data
      | Py.Raised Py.QueueEmpty => Py.Returned q0
      | Py.Raised e => Py.Raised e
      | Py.OutOfFuel => Py.OutOfFuel
      end
  | r => r
  end.

(** The frames of a capture thread, enqueued one after the other while no
    worker takes a frame. *)
Fixpoint enqueue_frames (q : queue A) (frames : list A)
    : Py.result (queue A) :=
  match frames with
  | [] => Py.Returned q
  | frame_data :: rest =>
      q' ← enqueue_frame no_worker q frame_data;
      enqueue_frames q' rest
  end.

(** A queue is within its bound. *)
Definition bounded (q : queue A) : Prop :=
  (0 < maxsize q)%Z /\ (Z.of_nat (length (items q)) <= maxsize q)%Z.

(** The newest [maxsize] items of a list. *)
Definition newest (cap : Z) (l : list A) : list A :=
  drop (length l - Z.to_nat cap) l.

(** Up to [n] successive [get_nowait] calls, ended by the first
    [queue.Empty]: the frames taken and the queue that is left. *)
Fixpoint poll (n : nat) (q : queue A) : list A * queue A :=
  match n with
  | O => ([], q)
  | S n' =>
      match get_nowait q with
      | Py.Returned (x, q') =>
          let '(xs, q'') := poll n' q' in (x :: xs, q'')
      | _ => ([], q)
      end
  end.

End Queue.

(** *** The manager *)

(** The dictionary put on the queue for every captured frame. *)
Record frame_data (image : Type) := {
  fd_camera_id : string;
  fd_frame : image;
  fd_timestamp : string
}.
Arguments fd_camera_id {image} f.
Arguments fd_frame {image} f.
Arguments fd_timestamp {image} f.

Section Manager.
(** [image] is a captured frame, [callback] a frame-processing callable. *)
Context {image callback : Type}.

(** The dictionaries of a [CameraFeedManager]; a capture thread is
    represented by the [rtsp_url] it reads. *)
Record manager := {
  max_queue_size : Z;
  camera_queues : gmap string (queue (frame_data image));
  camera_threads : gmap string string;
  callbacks : gmap string callback
}.

Definition new_manager (max_queue_size : Z) : manager :=
  {| max_queue_size := max_queue_size; camera_queues := ∅;
     camera_threads := ∅; callbacks := ∅ |}.

(** [add_camera]; the function returns [None] on both of its paths and
    raises nothing.  (Calls of the logger are left out.) *)
Definition add_camera (m : manager) (camera_id rtsp_url : string)
    (cb : option callback) : Py.result () * manager :=
  if bool_decide (camera_id ∈ dom (camera_queues m)) then
    (Py.Returned (), m)
  else
    (Py.Returned (),
     {| max_queue_size := max_queue_size m;
        camera_queues :=
          <[camera_id := new_queue (max_queue_size m)]> (camera_queues m);
        camera_threads := <[camera_id := rtsp_url]> (camera_threads m);
        callbacks :=
          match cb with
          | Some f => <[camera_id := f]> (callbacks m)
          | None => callbacks m
          end |}).

(** [remove_camera]. *)
Definition remove_camera (m : manager) (camera_id : string) : manager :=
  if bool_decide (camera_id ∈ dom (camera_queues m)) then
    {| max_queue_size := max_queue_size m;
       camera_queues := delete camera_id (camera_queues m);
       camera_threads := delete camera_id (camera_threads m);
       callbacks := delete camera_id (callbacks m) |}
  else m.

(** One successful [cap.read()] of [_capture_frames]: the frame is
    stamped and enqueued on [self.camera_queues[camera_id]], while the
    workers take frames as [w] says.  A camera without a queue gives
    [KeyError]; the camera is not removed while the push is under way. *)
Definition capture_frame (m : manager) (camera_id : string) (frame : image)
    (timestamp : string) (w : interleaving) : Py.result manager :=
  let fd := {| fd_camera_id := camera_id; fd_frame := frame;
               fd_timestamp := timestamp |} in
  match camera_queues m !! camera_id with
  | None => Py.Raised (Py.KeyError camera_id)
  | Some q =>
      q' ← enqueue_frame w q fd;
      Py.Returned
        {| max_queue_size := max_queue_size m;
           camera_queues := <[camera_id := q']> (camera_queues m);
           camera_threads := camera_threads m;
           callbacks := callbacks m |}
  end.

(** One step of a worker in [_process_queues] for one camera: the oldest
    frame is taken without blocking and goes to the callback of the
    camera, if it has one; on [queue.Empty] the worker moves on.  The result
    is the manager afterwards and the frame taken, with the callback it is
    handed to. *)
Definition process_queue (m : manager) (camera_id : string)
    : manager * option (frame_data image * option callback) :=
  match camera_queues m !! camera_id with
  | None => (m, None)
  | Some q =>
      match get_nowait q with
      | Py.Returned (fd, q') =>
          ({| max_queue_size := max_queue_size m;
              camera_queues := <[camera_id := q']> (camera_queues m);
              camera_threads := camera_threads m;
              callbacks := callbacks m |},
           Some (fd, callbacks m !! camera_id))
      | _ => (m, None)
      end
  end.

(** [get_queue_status], the ['queue_size'] of every camera. *)
Definition queue_sizes (m : manager) : gmap string nat :=
  (fun q => length (items q)) <$> camera_queues m.

(** [stop]: [remove_camera] for every key of [camera_threads]. *)
Definition stop (m : manager) : manager :=
  foldl remove_camera m (elements (dom (camera_threads m))).

(** The calls that change a manager: registering and removing a camera, a
    frame read by a capture thread (with what the workers do to the queue
    in the meantime), a step of a worker. *)
Inductive op : Type :=
| Add (camera_id rtsp_url : string) (cb : option callback)
| Remove (camera_id : string)
| Capture (camera_id : string) (frame : image) (timestamp : string)
    (w : interleaving)
| Work (camera_id : string).

(** A capture thread whose enqueueing raises ends; the manager stays as it
    is. *)
Definition apply_op (m : manager) (o : op) : manager :=
  match o with
  | Add camera_id rtsp_url cb => (add_camera m camera_id rtsp_url cb).2
  | Remove camera_id => remove_camera m camera_id
  | Capture camera_id frame timestamp w =>
      match capture_frame m camera_id frame timestamp w with
      | Py.Returned m' => m'
      | _ => m
      end
  | Work camera_id => (process_queue m camera_id).1
  end.

Definition run (m : manager) (ops : list op) : manager :=
  foldl apply_op m ops.

(** The dictionaries of a manager fit together: every camera with a queue
    has a capture thread and the other way round, callbacks belong to
    cameras with a queue, and every queue has the manager's bound and is
    within it. *)
Definition consistent (m : manager) : Prop :=
  (0 < max_queue_size m)%Z
  /\ dom (camera_threads m) = dom (camera_queues m)
  /\ dom (callbacks m) ⊆ dom (camera_queues m)
  /\ map_Forall
       (fun _ q => maxsize q = max_queue_size m
                   /\ (Z.of_nat (length (items q)) <= max_queue_size m)%Z)
       (camera_queues m).

End Manager.
Arguments manager : clear implicits.
Arguments op : clear implicits.

End CameraFeedManager.

(** ** [graph_builder.py] *)

Module RouteGraphBuilder.
Open Scope Q_scope.

(** The attributes of an edge that [calculate_edge_weights] reads:
    ['length'] in metres, ['traffic_factor'], and ['maxspeed'] as
    [_parse_maxspeed] returns it. *)
Record edge := {
  edge_length : option Q;
  edge_maxspeed : Q;
  edge_traffic_factor : option Q
}.

Definition vehicle_factors : gmap string Q :=
  {[ "sedan" := 1.0; "suv" := 1.1; "truck" := 1.3; "van" := 1.15 ]}.

(** The body of the loop of [calculate_edge_weights] for one edge: the
    values stored as ['weight'] and ['base_time'].  A speed of zero makes
    the division raise. *)
Definition edge_weight `{!Py.CaseMapping} (vehicle_type : string) (time_of_day : string)
    (e : edge) : Py.result (Q * Q) :=
  let time_factor := if String.eqb time_of_day "day" then 1.2 else 1.0 in
  let vehicle_factor := Py.get vehicle_factors (Py.lower vehicle_type) 1.0 in
  let length := default 1 (edge_length e) in
  let maxspeed := edge_maxspeed e in
  let speed_kph := Py.min maxspeed 100 in
  if Qeq_bool speed_kph 0 then Py.Raised Py.ZeroDivisionError
  else
    let base_time := (length / 1000) / speed_kph * 3600 in
    let traffic_factor := default 1.0 (edge_traffic_factor e) in
    let weight := base_time * traffic_factor * time_factor * vehicle_factor in
    Py.Returned (weight, base_time).

End RouteGraphBuilder.

(** ** [route_optimization_agent.py] *)

Module RouteOptimizationAgent.

(** *** Great-circle distance and the traffic factor (real arithmetic) *)

Section Geometry.
Open Scope R_scope.

(** [math.radians]. *)
Definition radians (degrees : R) : R := degrees * PI / 180.

Definition _haversine (coord1 coord2 : R * R) : R :=
  let '(lat1, lon1) := coord1 in
  let '(lat2, lon2) := coord2 in
  let lon1 := radians lon1 in
  let lat1 := radians lat1 in
  let lon2 := radians lon2 in
  let lat2 := radians lat2 in
  let dlon := lon2 - lon1 in
  let dlat := lat2 - lat1 in
  let a := (sin (dlat / 2)) ^ 2 + cos lat1 * cos lat2 * (sin (dlon / 2)) ^ 2 in
  let c := 2 * asin (sqrt a) in
  let r := 6371 in
  c * r.

Definition _distance_to_route (start end_ point : R * R) : R :=
  let '(x1, y1) := start in
  let '(x2, y2) := end_ in
  let '(x0, y0) := point in
  let dx := x2 - x1 in
  let dy := y2 - y1 in
  match Req_dec_T dx 0, Req_dec_T dy 0 with
  | left _, left _ => sqrt ((x0 - x1) ^ 2 + (y0 - y1) ^ 2)
  | _, _ =>
      let t := ((x0 - x1) * dx + (y0 - y1) * dy) / (dx * dx + dy * dy) in
      let t := Rmax 0 (Rmin 1 t) in
      let closest_x := x1 + t * dx in
      let closest_y := y1 + t * dy in
      sqrt ((x0 - closest_x) ^ 2 + (y0 - closest_y) ^ 2)
  end.

(** An incident dictionary, as far as [_get_traffic_factor] reads it. *)
Record incident := {
  incident_location : option (R * R);
  incident_severity : option string
}.

(** The [traffic_conditions] dictionary, as far as it is read. *)
Record traffic_conditions := {
  tc_density : option R;
  tc_incidents : option (list incident)
}.

(** The empty dictionary [{}]. *)
Definition no_traffic_data : traffic_conditions :=
  {| tc_density := None; tc_incidents := None |}.

(** The factor applied for an incident of a given severity. *)
Definition severity_factor (severity : string) : R :=
  if String.eqb severity "low" then 1.2
  else if String.eqb severity "medium" then 1.5
  else 2.0.

(** The body of the loop over the incidents. *)
Definition incident_step (start end_ : R * R) (base_factor : R)
    (inc : incident) : R :=
  let incident_loc := default (0, 0) (incident_location inc) in
  let dist_to_route := _distance_to_route start end_ incident_loc in
  if Rlt_dec dist_to_route 0.01 then
    let severity := default "medium" (incident_severity inc) in
    base_factor * severity_factor severity
  else base_factor.

Definition _get_traffic_factor (start end_ : R * R)
    (conditions : traffic_conditions) : R :=
  let base_factor := 1.0 in
  let density := default 0.5 (tc_density conditions) in
  let base_factor := base_factor + density * 1.5 in
  let base_factor :=
    fold_left (incident_step start end_)
      (default [] (tc_incidents conditions)) base_factor in
  Rmax 1.0 base_factor.

(** The product of the factors of the incidents that lie within the
    corridor of the leg: the specification's reading of the loop. *)
Definition near_route (start end_ : R * R) (inc : incident) : Prop :=
  _distance_to_route start end_ (default (0, 0) (incident_location inc))
  < 0.01.

Fixpoint incident_product (start end_ : R * R) (incidents : list incident)
    : R :=
  match incidents with
  | [] => 1
  | inc :: rest =>
      (if Rlt_dec
            (_distance_to_route start end_
               (default (0, 0) (incident_location inc))) 0.01
       then severity_factor (default "medium" (incident_severity inc))
       else 1)
      * incident_product start end_ rest
  end.

End Geometry.

(** *** The weather factor (rational arithmetic) *)

Section Weather.
Context `{!Py.CaseMapping}.
Open Scope Q_scope.

(** The [weather_conditions] dictionary, as far as it is read. *)
Record weather_conditions := {
  wc_condition : option string;
  wc_precipitation : option Q;
  wc_wind_speed : option Q;
  wc_visibility : option Q;
  wc_temperature : option Q
}.

Definition condition_factors : gmap string Q :=
  list_to_map
    [("clear", 1.0); ("clouds", 1.0); ("partly-cloudy", 1.0);
     ("cloudy", 1.0); ("rain", 1.3); ("light rain", 1.2);
     ("moderate rain", 1.4); ("heavy rain", 1.7); ("showers", 1.5);
     ("thunderstorm", 2.0); ("snow", 2.0); ("light snow", 1.5);
     ("heavy snow", 2.5); ("fog", 1.5); ("mist", 1.3); ("haze", 1.2);
     ("dust", 1.4); ("sand", 1.6); ("ash", 1.8); ("squall", 2.0);
     ("tornado", 3.0)].

(** [a > b] and [a < b] as tests. *)
Definition gt (a b : Q) : bool := if Qlt_le_dec b a then true else false.
Definition lt (a b : Q) : bool := if Qlt_le_dec a b then true else false.

Definition _get_weather_factor (location : Q * Q)
    (weather : weather_conditions) : Q :=
  let condition := Py.lower (default "clear" (wc_condition weather)) in
  let factor := Py.get condition_factors condition 1.0 in
  let precipitation := default 0 (wc_precipitation weather) in
  let factor :=
    if gt precipitation 10 then Py.max factor 1.7
    else if gt precipitation 5 then Py.max factor 1.5
    else if gt precipitation 2 then Py.max factor 1.2
    else factor in
  let wind_speed := default 0 (wc_wind_speed weather) in
  let factor :=
    if gt wind_speed 50 then Py.max factor 2.0
    else if gt wind_speed 30 then Py.max factor 1.5
    else if gt wind_speed 20 then Py.max factor 1.2
    else factor in
  let visibility := default 10 (wc_visibility weather) in
  let factor :=
    if lt visibility 0.1 then Py.max factor 2.0
    else if lt visibility 0.5 then Py.max factor 1.7
    else if lt visibility 1 then Py.max factor 1.3
    else factor in
  let temperature := default 20 (wc_temperature weather) in
  let factor :=
    if gt temperature 35 || lt temperature (-5) then Py.max factor 1.3
    else factor in
  Py.max 1.0 factor.

(** The sub-factors as the specification lists them: the base value of the
    condition and, where a threshold applies, its value. *)
Definition condition_base (weather : weather_conditions) : Q :=
  Py.get condition_factors
    (Py.lower (default "clear" (wc_condition weather))) 1.0.

Definition precipitation_value (weather : weather_conditions) : option Q :=
  let p := default 0 (wc_precipitation weather) in
  if gt p 10 then Some 1.7 else if gt p 5 then Some 1.5
  else if gt p 2 then Some 1.2 else None.

Definition wind_value (weather : weather_conditions) : option Q :=
  let w := default 0 (wc_wind_speed weather) in
  if gt w 50 then Some 2.0 else if gt w 30 then Some 1.5
  else if gt w 20 then Some 1.2 else None.

Definition visibility_value (weather : weather_conditions) : option Q :=
  let v := default 10 (wc_visibility weather) in
  if lt v 0.1 then Some 2.0 else if lt v 0.5 then Some 1.7
  else if lt v 1 then Some 1.3 else None.

Definition temperature_value (weather : weather_conditions) : option Q :=
  let t := default 20 (wc_temperature weather) in
  if gt t 35 || lt t (-5) then Some 1.3 else None.

(** One adjustment [factor = max(factor, c)], made when a threshold value
    [c] applies. *)
Definition raise_to (factor : Q) (value : option Q) : Q :=
  match value with
  | Some c => Py.max factor c
  | None => factor
  end.

Definition sub_factors (weather : weather_conditions) : list Q :=
  condition_base weather
  :: omap (fun v => v) [precipitation_value weather; wind_value weather;
                        visibility_value weather; temperature_value weather].

(** The dictionary returned by [_get_current_weather]. *)
Record weather_record := {
  wr_condition : string;
  wr_temperature : Q;
  wr_precipitation : Q;
  wr_wind_speed : Q;
  wr_humidity : Q;
  wr_visibility : Q;
  wr_timestamp : nat
}.

(** The names bound at the top level of the module: its imports, [logger],
    [BYTETRACK_AVAILABLE] and the class. *)
Definition module_names : gmap string () :=
  list_to_map
    ((fun name => (name, ())) <$>
     ["np"; "torch"; "nn"; "optim"; "List"; "Dict"; "Tuple"; "Optional";
      "Union"; "Callable"; "nx"; "os"; "cv2"; "time"; "Path"; "datetime";
      "timedelta"; "requests"; "logging"; "YOLO"; "camera_manager";
      "BaseAgent"; "model_loader"; "json"; "logger"; "BYTETracker";
      "BYTETRACK_AVAILABLE"; "RouteOptimizationAgent"]).

(** What the calls of the [random] module in the mock data would give. *)
Record draws := {
  draw_condition : string;
  draw_temperature : Q;
  draw_precipitation : Q;
  draw_wind_speed : Q;
  draw_humidity : Q;
  draw_visibility : Q
}.

(** [_get_current_weather]: the mock data reads the name [random]; every
    exception of the [try] block is answered with the default values. *)
Definition _get_current_weather (rnd : draws) (location : Q * Q)
    (now : nat) : weather_record :=
  match Py.load_name module_names "random" with
  | Py.Returned _ =>
      {| wr_condition := draw_condition rnd;
         wr_temperature := draw_temperature rnd;
         wr_precipitation := draw_precipitation rnd;
         wr_wind_speed := draw_wind_speed rnd;
         wr_humidity := draw_humidity rnd;
         wr_visibility := draw_visibility rnd;
         wr_timestamp := now |}
  | _ =>
      {| wr_condition := "clear"; wr_temperature := 22;
         wr_precipitation := 0; wr_wind_speed := 10; wr_humidity := 60;
         wr_visibility := 10; wr_timestamp := now |}
  end.

(** A weather record read as the [weather_conditions] of a request. *)
Definition as_conditions (w : weather_record) : weather_conditions :=
  {| wc_condition := Some (wr_condition w);
     wc_precipitation := Some (wr_precipitation w);
     wc_wind_speed := Some (wr_wind_speed w);
     wc_visibility := Some (wr_visibility w);
     wc_temperature := Some (wr_temperature w) |}.

End Weather.

(** *** Camera feeds and frame processing *)

Section Cameras.
(** [image] is a frame and [callback] a callable given by the caller. *)
Context {image callback : Type}.

(** Points in time; [datetime.min] is the least of them. *)
Definition datetime : Type := nat.
Definition datetime_min : datetime := 0%nat.

(** A box found by the detector and a target kept by the tracker. *)
Record detection := {
  det_box : Q * Q * Q * Q;
  det_score : Q;
  det_class_id : Z
}.

Record target := {
  target_tlwh : list Q;
  target_track_id : Z;
  target_class_id : Z;
  target_score : Q
}.

Record tracked_vehicle := {
  tv_id : Z;
  tv_class : Z;
  tv_bbox : list Q;
  tv_confidence : Q
}.

(** The dictionary returned by [_analyze_traffic]: empty, or with all of
    its five keys. *)
Inductive traffic_data : Type :=
| EmptyDict
| Analysis (vehicles : list tracked_vehicle) (density : Q)
    (is_congested : bool) (vehicle_count : nat) (timestamp : datetime).

(** An entry of [self.camera_data]. *)
Record camera_entry := {
  location : Q * Q;
  last_update : datetime;
  camera_traffic_conditions : traffic_data;
  status : string
}.

(** What [process_frame] closes over: the camera and the caller's
    callback. *)
Definition process_frame : Type := string * option callback.

(** The agent, as far as the camera feeds use it.  [yolo_model] stands for
    the detector call together with the colour conversion and the reading
    of the boxes, [tracker] for [tracker.update]; both are collaborators
    that may raise. *)
Record agent := {
  yolo_model : option (image -> Py.result (list detection));
  tracker : option (list detection -> Py.result (list target));
  traffic_density : Q;
  camera_data : gmap string camera_entry;
  active_cameras : gset string;
  camera_manager : CameraFeedManager.manager image process_frame
}.

Definition vehicle_classes : list Z := [2; 3; 5; 7]%Z.
Definition traffic_jam_threshold : nat := 10.

Definition set_traffic_density (a : agent) (d : Q) : agent :=
  {| yolo_model := yolo_model a; tracker := tracker a;
     traffic_density := d; camera_data := camera_data a;
     active_cameras := active_cameras a;
     camera_manager := camera_manager a |}.

Definition set_camera_data (a : agent) (cd : gmap string camera_entry)
    : agent :=
  {| yolo_model := yolo_model a; tracker := tracker a;
     traffic_density := traffic_density a; camera_data := cd;
     active_cameras := active_cameras a;
     camera_manager := camera_manager a |}.

(** The [try] block of [_analyze_traffic]. *)
Definition analyze (a : agent)
    (model : image -> Py.result (list detection)) (frame : image)
    (now : datetime) : Py.result (traffic_data * agent) :=
  boxes ← model frame;
  let detections :=
    filter (fun d => det_class_id d ∈ vehicle_classes) boxes in
  match tracker a, detections with
  | Some update, _ :: _ =>
      online_targets ← update detections;
      let tracked_vehicles :=
        (fun t => {| tv_id := target_track_id t;
                     tv_class := target_class_id t;
                     tv_bbox := target_tlwh t;
                     tv_confidence := target_score t |})
        <$> filter (fun t => target_class_id t ∈ vehicle_classes)
              online_targets in
      let count := length tracked_vehicles in
      let density := Py.min 1.0 (inject_Z (Z.of_nat count) / 50.0)%Q in
      Py.Returned
        (Analysis tracked_vehicles density
           (bool_decide (traffic_jam_threshold < count)%nat) count now,
         set_traffic_density a density)
  | _, _ => Py.Returned (EmptyDict, a)
  end.

(** [_analyze_traffic]: every exception of the [try] block is caught and
    answered with the empty dictionary. *)
Definition _analyze_traffic (a : agent) (frame : image) (now : datetime)
    : traffic_data * agent :=
  match yolo_model a with
  | None => (EmptyDict, a)
  | Some model =>
      match analyze a model frame now with
      | Py.Returned r => r
      | _ => (EmptyDict, a)
      end
  end.

(** [self.traffic_density] after a call of [_analyze_traffic] that gave
    [data]: the density of the analysis, or the value before the call when
    the result is the empty dictionary. *)
Definition density_after (a : agent) (data : traffic_data) : Q :=
  match data with
  | EmptyDict => traffic_density a
  | Analysis _ density _ _ _ => density
  end.

(** The dictionary handed to the caller's callback. *)
Record frame_result := {
  fr_camera_id : string;
  fr_timestamp : string;
  fr_traffic_data : traffic_data;
  fr_location : Q * Q
}.

(** [_process_camera_frame]; the result is the agent afterwards and
    the value handed to the callback, if one is called.  All readings of
    the clock within one call give [now]. *)
Definition _process_camera_frame (a : agent) (camera_id : string)
    (fd : CameraFeedManager.frame_data image) (cb : option callback)
    (now : datetime) : agent * option frame_result :=
  match camera_data a !! camera_id with
  | None => (a, None)
  | Some entry =>
      let entry :=
        {| location := location entry; last_update := now;
           camera_traffic_conditions := camera_traffic_conditions entry;
           status := status entry |} in
      let a := set_camera_data a (<[camera_id := entry]> (camera_data a)) in
      let '(data, a) :=
        _analyze_traffic a (CameraFeedManager.fd_frame fd) now in
      let entry :=
        {| location := location entry; last_update := now;
           camera_traffic_conditions := data; status := status entry |} in
      let a := set_camera_data a (<[camera_id := entry]> (camera_data a)) in
      (a,
       match cb with
       | Some _ =>
           Some {| fr_camera_id := camera_id;
                   fr_timestamp := CameraFeedManager.fd_timestamp fd;
                   fr_traffic_data := data;
                   fr_location := location entry |}
       | None => None
       end)
  end.

(** [add_camera_feed]; it returns [None] on both of its paths and raises
    nothing. *)
Definition add_camera_feed (a : agent) (camera_id rtsp_url : string)
    (loc : Q * Q) (cb : option callback) : Py.result () * agent :=
  if bool_decide (camera_id ∈ active_cameras a) then (Py.Returned (), a)
  else
    let entry :=
      {| location := loc; last_update := datetime_min;
         camera_traffic_conditions := EmptyDict; status := "active" |} in
    let '(_, m) :=
      CameraFeedManager.add_camera (camera_manager a) camera_id rtsp_url
        (Some (camera_id, cb)) in
    (Py.Returned (),
     {| yolo_model := yolo_model a; tracker := tracker a;
        traffic_density := traffic_density a;
        camera_data := <[camera_id := entry]> (camera_data a);
        active_cameras := {[camera_id]} ∪ active_cameras a;
        camera_manager := m |}).

(** The detection collaborator fails on a frame: the detector raises, or
    the tracker raises on the vehicles the detector found. *)
Definition detection_fails (a : agent) (frame : image) : Prop :=
  exists model,
    yolo_model a = Some model
    /\ ((exists e, model frame = Py.Raised e)
        \/ (exists boxes update e,
              model frame = Py.Returned boxes
              /\ tracker a = Some update
              /\ filter (fun d => det_class_id d ∈ vehicle_classes) boxes <> []
              /\ update
                   (filter (fun d => det_class_id d ∈ vehicle_classes) boxes)
                 = Py.Raised e)).

(** [remove_camera_feed]. *)
Definition remove_camera_feed (a : agent) (camera_id : string) : agent :=
  if bool_decide (camera_id ∈ active_cameras a) then
    {| yolo_model := yolo_model a; tracker := tracker a;
       traffic_density := traffic_density a;
       camera_data := delete camera_id (camera_data a);
       active_cameras := active_cameras a ∖ {[camera_id]};
       camera_manager :=
         CameraFeedManager.remove_camera (camera_manager a) camera_id |}
  else a.

(** [get_camera_status]: the entries of the active cameras. *)
Definition get_camera_status (a : agent) : gmap string camera_entry :=
  filter (fun kv => kv.1 ∈ active_cameras a) (camera_data a).

(** The calls that change the cameras of an agent. *)
Inductive agent_op : Type :=
| AddFeed (camera_id rtsp_url : string) (loc : Q * Q) (cb : option callback)
| RemoveFeed (camera_id : string)
| Frame (camera_id : string) (fd : CameraFeedManager.frame_data image)
    (cb : option callback) (now : datetime).

Definition apply_agent_op (a : agent) (o : agent_op) : agent :=
  match o with
  | AddFeed camera_id rtsp_url loc cb =>
      (add_camera_feed a camera_id rtsp_url loc cb).2
  | RemoveFeed camera_id => remove_camera_feed a camera_id
  | Frame camera_id fd cb now =>
      (_process_camera_frame a camera_id fd cb now).1
  end.

Definition run_agent (a : agent) (ops : list agent_op) : agent :=
  foldl apply_agent_op a ops.

(** An agent that has no camera yet. *)
Definition new_agent
    (model : option (image -> Py.result (list detection)))
    (update : option (list detection -> Py.result (list target)))
    (max_queue_size : Z) : agent :=
  {| yolo_model := model; tracker := update; traffic_density := 0%Q;
     camera_data := ∅; active_cameras := ∅;
     camera_manager := CameraFeedManager.new_manager max_queue_size |}.

(** The cameras of the agent and of its manager fit together. *)
Definition cameras_in_step (a : agent) : Prop :=
  dom (camera_data a) = active_cameras a
  /\ dom (CameraFeedManager.camera_queues (camera_manager a))
     = active_cameras a
  /\ CameraFeedManager.consistent (camera_manager a).

End Cameras.
Arguments agent : clear implicits.
Arguments agent_op : clear implicits.

(** *** A sample agent: one camera with known traffic conditions

    Frames are numbers.  The detector finds twelve cars on frame 1 and
    raises on any other frame; the tracker keeps every detection. *)

Definition sample_detector (frame : nat) : Py.result (list detection) :=
  if Nat.eqb frame 1 then
    Py.Returned
      (replicate 12
         {| det_box := (0, 0, 10, 10)%Q; det_score := 0.9%Q;
            det_class_id := 2 |})
  else Py.Raised (Py.RuntimeError "inference failed").

Definition sample_tracker (detections : list detection)
    : Py.result (list target) :=
  Py.Returned
    (imap (fun i d =>
             {| target_tlwh := [0; 0; 10; 10]%Q;
                target_track_id := Z.of_nat i;
                target_class_id := det_class_id d;
                target_score := det_score d |}) detections).

Definition sample_frame (n : nat) : CameraFeedManager.frame_data nat :=
  {| CameraFeedManager.fd_camera_id := "cam1";
     CameraFeedManager.fd_frame := n;
     CameraFeedManager.fd_timestamp := "2024-01-01T00:00:00" |}.

(** An agent without cameras. *)
Definition fresh_agent : agent nat unit :=
  {| yolo_model := Some sample_detector; tracker := Some sample_tracker;
     traffic_density := 0%Q; camera_data := ∅; active_cameras := ∅;
     camera_manager := CameraFeedManager.new_manager 10 |}.

(** The agent after the camera "cam1" was registered and frame 1 was
    processed at time 100. *)
Definition cam1_agent : agent nat unit :=
  (_process_camera_frame
     (add_camera_feed fresh_agent "cam1" "rtsp://cam1" (12.97, 77.59)%Q
        None).2
     "cam1" (sample_frame 1) None 100%nat).1.

(** Traffic conditions that report [n] vehicles, congestion and a density
    of [d]. *)
Definition congested_with (n : nat) (d : Q) (data : traffic_data) : Prop :=
  match data with
  | Analysis vehicles density is_congested vehicle_count _ =>
      length vehicles = n /\ vehicle_count = n /\ is_congested = true
      /\ (density == d)%Q
  | EmptyDict => False
  end.

End RouteOptimizationAgent.

(** ** [backend/ml/route_optimizer.py] *)

Module OrToolsRouteOptimizer.
Open Scope R_scope.

(** [math.atan2] on real numbers. *)
Definition atan2 (y x : R) : R :=
  if Rlt_dec 0 x then atan (y / x)
  else if Rlt_dec x 0 then
    if Rle_dec 0 y then atan (y / x) + PI else atan (y / x) - PI
  else if Rlt_dec 0 y then PI / 2
  else if Rlt_dec y 0 then - PI / 2
  else 0.

(** [int(x)]: truncation towards zero. *)
Definition int (x : R) : Z :=
  if Rle_dec 0 x then Int_part x else (- Int_part (- x))%Z.

(** A location dictionary with the keys ['lat'] and ['lng']. *)
Record location := { lat : R; lng : R }.

Definition haversine_distance (coord1 coord2 : location) : Z :=
  let R_ := 6371000 in
  let lat1 := RouteOptimizationAgent.radians (lat coord1) in
  let lon1 := RouteOptimizationAgent.radians (lng coord1) in
  let lat2 := RouteOptimizationAgent.radians (lat coord2) in
  let lon2 := RouteOptimizationAgent.radians (lng coord2) in
  let dlat := lat2 - lat1 in
  let dlon := lon2 - lon1 in
  let a := (sin (dlat / 2)) ^ 2 + cos lat1 * cos lat2 * (sin (dlon / 2)) ^ 2 in
  let c := 2 * atan2 (sqrt a) (sqrt (1 - a)) in
  int (R_ * c).

(** *** [create_distance_matrix]

    The nested [haversine_distance] as the floats of the runtime compute
    it is a parameter here: it returns a number of metres, or it raises
    ([math.sqrt(1 - a)] raises [ValueError] when rounding takes [a] above
    1, as it does for antipodal locations). *)
Section DistanceMatrix.
Variable haversine : location -> location -> Py.result Z.

(** The body of the inner loop: 0 on the diagonal, without a call of the
    nested function; the haversine distance elsewhere. *)
Definition matrix_entry (i : nat) (coord1 : location) (j : nat)
    (coord2 : location) : Py.result Z :=
  if Nat.eqb i j then Py.Returned 0%Z else haversine coord1 coord2.

(** [for j in range(len(locations))], from column [j] on: the entries are
    appended in order, and the first exception ends the loop. *)
Fixpoint matrix_row (i : nat) (coord1 : location) (j : nat)
    (rest : list location) : Py.result (list Z) :=
  match rest with
  | [] => Py.Returned []
  | coord2 :: rest' =>
      d ← matrix_entry i coord1 j coord2;
      row ← matrix_row i coord1 (S j) rest';
      Py.Returned (d :: row)
  end.

(** [for i in range(len(locations))], from row [i] on. *)
Fixpoint matrix_rows (locations : list location) (i : nat)
    (rest : list location) : Py.result (list (list Z)) :=
  match rest with
  | [] => Py.Returned []
  | coord1 :: rest' =>
      row ← matrix_row i coord1 0 locations;
      rows ← matrix_rows locations (S i) rest';
      Py.Returned (row :: rows)
  end.

Definition create_distance_matrix (locations : list location)
    : Py.result (list (list Z)) :=
  matrix_rows locations 0 locations.

End DistanceMatrix.

End OrToolsRouteOptimizer.

(** * Properties *)

(** ** Python primitives *)

Module PyFacts.
Open Scope Q_scope.

Lemma max_Qmax (a b : Q) : Py.max a b == Qmax a b.
Proof.
  unfold Py.max. destruct (Qlt_le_dec a b) as [Hlt | Hle].
  - symmetry. apply Q.max_r. now apply Qlt_le_weak.
  - symmetry. now apply Q.max_l.
Qed.

Lemma max_ge_l (a b : Q) : a <= Py.max a b.
Proof.
  unfold Py.max. destruct (Qlt_le_dec a b) as [Hlt | Hle].
  - now apply Qlt_le_weak.
  - apply Qle_refl.
Qed.

Lemma max_ge_r (a b : Q) : b <= Py.max a b.
Proof.
  unfold Py.max. destruct (Qlt_le_dec a b) as [Hlt | Hle].
  - apply Qle_refl.
  - exact Hle.
Qed.

Lemma max_cases (a b : Q) : Py.max a b = a \/ Py.max a b = b.
Proof. unfold Py.max. destruct (Qlt_le_dec a b); auto. Qed.

Lemma bind_returned {A B} (r : Py.result A) (k : A -> Py.result B) (b : B) :
  r ≫= k = Py.Returned b ->
  exists a, r = Py.Returned a /\ k a = Py.Returned b.
Proof. destruct r as [a| |]; [by exists a | done | done]. Qed.

Lemma sum_app (l k : list Q) : Py.sum (l ++ k) == Py.sum l + Py.sum k.
Proof.
  induction l as [|x l IH].
  - change (Py.sum k == 0 + Py.sum k). ring.
  - change (x + Py.sum (l ++ k) == (x + Py.sum l) + Py.sum k).
    rewrite IH. ring.
Qed.


End PyFacts.

(** ** Fuel consumption *)

Module FuelCalculatorFacts.
Import FuelCalculator.
Open Scope Q_scope.

(** Reading the rate dictionary with the default 10.0 is the rate table. *)
Lemma base_consumption_get (k : string) :
  Py.get base_consumption k 10.0 = base_rate k.
Proof.
  unfold Py.get, base_consumption, base_rate.
  repeat (rewrite lookup_insert; case_decide as Hk;
          [ subst k; reflexivity
          | apply not_eq_sym, String.eqb_neq in Hk; rewrite Hk; clear Hk ]).
  rewrite lookup_singleton. case_decide as Hk.
  - subst k. reflexivity.
  - apply not_eq_sym, String.eqb_neq in Hk. now rewrite Hk.
Qed.

(** C6: for every case mapping of the runtime, the fuel is
    base_rate(vehicle type, as [str.lower()] gives it) x (1 + 0.001 load) x
    (1 + max(0, speed - 60) x 0.001) x elevation factor x road factor
    / 100 x distance, where the rate is 7.5 / 10.0 / 25.0 / 12.0 for
    sedan / suv / truck / van and the default 10.0 for any other type, the
    elevation factor is 1 without elevation gain, the road factor of
    "average" is 1.2, and the emissions are the fuel times 2.31. *)
Theorem calculate_fuel_consumption_formula `{!Py.CaseMapping}
    (distance_km load_kg avg_speed_kmh elevation_gain_m : Q)
    (vehicle_type road_condition : string) :
  let r := calculate_fuel_consumption distance_km vehicle_type load_kg
             avg_speed_kmh elevation_gain_m road_condition in
  total_fuel_liters r ==
    base_rate (Py.lower vehicle_type)
    * (1 + 0.001 * load_kg)
    * (1 + Qmax 0 (avg_speed_kmh - 60) * 0.001)
    * factor_elevation r * factor_road_condition r / 100 * distance_km
  /\ emissions_kg_co2 r == total_fuel_liters r * 2.31
  /\ factor_elevation r == 1 + elevation_gain_m * 0.0001
  /\ factor_elevation
       (calculate_fuel_consumption distance_km vehicle_type load_kg
          avg_speed_kmh 0 road_condition) == 1
  /\ factor_road_condition
       (calculate_fuel_consumption distance_km vehicle_type load_kg
          avg_speed_kmh elevation_gain_m "average") == 1.2
  /\ (base_rate "sedan" = 7.5 /\ base_rate "suv" = 10.0
      /\ base_rate "truck" = 25.0 /\ base_rate "van" = 12.0)
  /\ (forall t, t <> "sedan" -> t <> "suv" -> t <> "truck" -> t <> "van" ->
      base_rate t = 10.0).
Proof.
  cbv zeta. unfold calculate_fuel_consumption; cbn [total_fuel_liters
    emissions_kg_co2 factor_elevation factor_road_condition].
  rewrite base_consumption_get.
  unfold factors_load, factors_speed_optimal, factors_speed_penalty,
    factors_elevation.
  refine (conj _ (conj _ (conj _ (conj _ (conj _ (conj _ _)))))).
  - rewrite (PyFacts.max_Qmax 0 (avg_speed_kmh - 60)). field.
  - reflexivity.
  - field.
  - field.
  - vm_compute. reflexivity.
  - repeat split; reflexivity.
  - intros t H1 H2 H3 H4. unfold base_rate.
    apply String.eqb_neq in H1, H2, H3, H4. now rewrite H1, H2, H3, H4.
Qed.

End FuelCalculatorFacts.

(** ** Route optimisation *)

Module RouteOptimizerFacts.
Import RouteOptimizer.

(** *** The partition into clusters *)

Section ClusterFacts.
Context {A : Type}.
Implicit Types (stops cluster : list A) (clusters : list (list A)).

Lemma concat_alter_snoc clusters (i : nat) (x : A) :
  (i < length clusters)%nat ->
  concat (alter (fun c => c ++ [x]) i clusters) ≡ₚ concat clusters ++ [x].
Proof.
  revert i. induction clusters as [|c clusters IH]; intros i Hi; cbn in Hi.
  - lia.
  - destruct i as [|i]; cbn.
    + rewrite <- !(assoc_L (++)). apply Permutation_app_head.
      apply Permutation_app_comm.
    + rewrite IH by lia. by rewrite (assoc_L (++)).
Qed.

(** The round-robin pass keeps the number of clusters and hands every stop
    to one of them. *)
Lemma round_robin_permutation (n i : nat) stops clusters :
  (0 < n)%nat -> length clusters = n ->
  exists clusters',
    round_robin n i stops clusters = Py.Returned clusters'
    /\ length clusters' = n
    /\ concat clusters' ≡ₚ concat clusters ++ stops.
Proof.
  intros Hn. revert i clusters.
  induction stops as [|stop stops IH]; intros i clusters Hlen.
  - exists clusters. by rewrite app_nil_r.
  - cbn [round_robin]. destruct (Nat.eqb_spec n 0) as [-> | _]; [lia|].
    destruct (IH (S i) (alter (fun c => c ++ [stop]) (i mod n)%nat clusters))
      as (clusters' & Hrun & Hlen' & Hperm).
    { by rewrite length_alter. }
    exists clusters'. split; [done|]. split; [done|].
    rewrite Hperm, concat_alter_snoc.
    + by rewrite <- (assoc_L (++)).
    + rewrite Hlen. apply Nat.mod_upper_bound. lia.
Qed.

Lemma slice_split cluster (m : Z) :
  (0 < m)%Z ->
  Py.slice_to cluster m ++ Py.slice_from cluster m = cluster.
Proof.
  intros Hm. unfold Py.slice_to, Py.slice_from.
  destruct (Z.leb_spec 0 m); [|lia]. apply take_drop.
Qed.

(** With a positive bound the [while] loop ends within [length cluster]
    iterations; it cuts full chunks off the front of the cluster, in
    order. *)
Lemma split_cluster_spec (fuel : nat) (m : Z) final cluster :
  (0 < m)%Z -> (length cluster <= fuel)%nat ->
  exists chunks rest,
    split_cluster fuel m final cluster = Some (final ++ chunks, rest)
    /\ concat chunks ++ rest = cluster
    /\ Forall (fun c => c <> [] /\ (Z.of_nat (length c) <= m)%Z) chunks
    /\ (Z.of_nat (length rest) <= m)%Z.
Proof.
  intros Hm. revert final cluster.
  induction fuel as [|fuel IH]; intros final cluster Hfuel.
  - destruct cluster; [|cbn in Hfuel; lia].
    exists [], []. cbn [split_cluster length].
    destruct (Z.ltb_spec m (Z.of_nat 0)); [lia|].
    rewrite app_nil_r. repeat split; [constructor | cbn; lia].
  - cbn [split_cluster].
    destruct (Z.ltb_spec m (Z.of_nat (length cluster))) as [Hlong | Hshort].
    + assert (length (Py.slice_to cluster m) = Z.to_nat m) as Hchunk.
      { unfold Py.slice_to. destruct (Z.leb_spec 0 m); [|lia].
        rewrite length_take. lia. }
      assert (length (Py.slice_from cluster m)
              = (length cluster - Z.to_nat m)%nat) as Hrest.
      { unfold Py.slice_from. destruct (Z.leb_spec 0 m); [|lia].
        by rewrite length_drop. }
      destruct (IH (final ++ [Py.slice_to cluster m])
                  (Py.slice_from cluster m))
        as (chunks & rest & Hrun & Hcat & Hchunks & Hlen); [lia|].
      exists (Py.slice_to cluster m :: chunks), rest.
      rewrite Hrun, <- (assoc_L (++)). split; [done|]. split.
      { cbn. rewrite <- (assoc_L (++)), Hcat. by apply slice_split. }
      split; [|done]. constructor; [|done]. split; [|lia].
      intros Hnil. rewrite Hnil in Hchunk. cbn in Hchunk. lia.
    + exists [], cluster. rewrite app_nil_r. repeat split; [constructor | lia].
Qed.

Lemma enforce_max_spec (fuel : nat) (m : Z) clusters final :
  (0 < m)%Z -> Forall (fun c => (length c <= fuel)%nat) clusters ->
  exists added,
    enforce_max fuel m clusters final = Py.Returned (final ++ added)
    /\ concat added = concat clusters
    /\ Forall (fun c => c <> [] /\ (Z.of_nat (length c) <= m)%Z) added.
Proof.
  intros Hm. revert final.
  induction clusters as [|cluster clusters IH]; intros final Hfuel.
  - exists []. by rewrite app_nil_r.
  - apply Forall_cons in Hfuel as [Hc Hfuel]. cbn [enforce_max].
    destruct (split_cluster_spec fuel m final cluster Hm Hc)
      as (chunks & rest & -> & Hcat & Hchunks & Hlen).
    destruct rest as [|x rest].
    + destruct (IH (final ++ chunks) Hfuel) as (added & -> & Hadd & Hall).
      exists (chunks ++ added). rewrite (assoc_L (++)). split; [done|].
      rewrite concat_app, Hadd. rewrite app_nil_r in Hcat. cbn.
      split; [by rewrite Hcat|]. by apply Forall_app.
    + destruct (IH ((final ++ chunks) ++ [x :: rest]) Hfuel)
        as (added & -> & Hadd & Hall).
      exists (chunks ++ [x :: rest] ++ added).
      rewrite !(assoc_L (++)). split; [done|]. split.
      * rewrite !concat_app, Hadd. cbn [concat]. rewrite app_nil_r.
        by rewrite Hcat.
      * apply Forall_app. split; [apply Forall_app; split|]; [done| |done].
        constructor; [|constructor]. split; [done | done].
Qed.

(** [_cluster_stops] returns when there is a vehicle and the bound is
    positive: the clusters hold every stop exactly once, none is empty,
    none is longer than the bound. *)
Lemma cluster_stops_partition (fuel : nat) stops (n : nat) (m : Z) :
  (0 < n)%nat -> (0 < m)%Z -> (length stops <= fuel)%nat ->
  exists clusters,
    _cluster_stops fuel stops n m = Py.Returned clusters
    /\ concat clusters ≡ₚ stops
    /\ Forall (fun c => c <> [] /\ (Z.of_nat (length c) <= m)%Z) clusters.
Proof.
  intros Hn Hm Hfuel. unfold _cluster_stops.
  destruct (round_robin_permutation n 0 stops (replicate n []) Hn)
    as (rr & -> & Hlen & Hperm); [apply length_replicate|].
  assert (concat (replicate n ([] : list A)) = []) as Hnil.
  { clear. induction n; [done | done]. }
  rewrite Hnil in Hperm. cbn in Hperm.
  destruct (enforce_max_spec fuel m rr [] Hm) as (added & Hrun & Hcat & Hall).
  { apply Forall_forall. intros c Hc.
    apply Permutation_length in Hperm.
    assert (length c <= length (concat rr))%nat; [|lia].
    clear -Hc. induction Hc as [c l | c c' l Hc IH]; cbn;
      rewrite length_app; lia. }
  exists added. cbn. cbn in Hrun. rewrite Hrun. split; [done|].
  split; [by rewrite Hcat | done].
Qed.

End ClusterFacts.

(** *** The nearest-neighbour order *)

Section NearestNeighbor.
Variable dist : point -> point -> Q.

Lemma below_inf (d : Q) : below d None = true.
Proof. reflexivity. Qed.

(** A candidate, once found, is never forgotten by the inner loop. *)
Lemma nearest_fold_keeps_some stops visited last js st :
  is_Some st.1 ->
  is_Some (fold_left (nearest_step dist stops visited last) js st).1.
Proof.
  revert st. induction js as [|j js IH]; intros st Hst; [done|].
  cbn [fold_left]. apply IH. unfold nearest_step.
  destruct (negb (visited !!! j)); [|done].
  destruct (below _ _); [by eexists | done].
Qed.

(** The inner loop finds a candidate as soon as one index is unvisited. *)
Lemma nearest_fold_finds stops visited last js st :
  (st.1 = None -> st.2 = None) ->
  (exists j, j ∈ js /\ visited !!! j = false) ->
  is_Some (fold_left (nearest_step dist stops visited last) js st).1.
Proof.
  revert st. induction js as [|j js IH]; intros st Hinv (j' & Hin & Hj').
  - by apply elem_of_nil in Hin.
  - cbn [fold_left]. apply elem_of_cons in Hin as [-> | Hin].
    + apply nearest_fold_keeps_some. unfold nearest_step. rewrite Hj'.
      cbn [negb]. destruct st as [[n|] b]; cbn in *.
      * destruct (below _ _); by eexists.
      * rewrite (Hinv eq_refl). by eexists.
    + apply IH; [|by exists j'].
      unfold nearest_step. destruct (negb (visited !!! j)); [|done].
      destruct (below _ _); [done | done].
Qed.

(** Whatever the inner loop returns is an unvisited index it looked at, or
    the candidate it started from. *)
Lemma nearest_fold_sound stops visited last js st j :
  (fold_left (nearest_step dist stops visited last) js st).1 = Some j ->
  st.1 = Some j \/ (j ∈ js /\ visited !!! j = false).
Proof.
  revert st. induction js as [|j' js IH]; intros st Hres; [by left|].
  cbn [fold_left] in Hres. apply IH in Hres as [Hst | [Hin Hj]].
  - unfold nearest_step in Hst.
    destruct (negb (visited !!! j')) eqn:Hv; [|by left].
    destruct (below _ _); [|by left].
    cbn in Hst. injection Hst as <-. right. split; [by left|].
    by apply negb_true_iff in Hv.
  - right. split; [by right | done].
Qed.

Lemma find_nearest_sound stops visited last j :
  find_nearest dist stops visited last = Some j ->
  (j < length stops)%nat /\ visited !!! j = false.
Proof.
  unfold find_nearest. intros [Hst | [Hin Hj]]%nearest_fold_sound; [done|].
  split; [|done]. apply elem_of_seq in Hin. lia.
Qed.

Lemma find_nearest_finds stops visited last j :
  (j < length stops)%nat -> visited !!! j = false ->
  is_Some (find_nearest dist stops visited last).
Proof.
  intros Hj Hv. unfold find_nearest. apply nearest_fold_finds; [done|].
  exists j. split; [|done]. apply elem_of_seq. lia.
Qed.

Lemma nn_inv_init n :
  (0 < n)%nat -> nn_inv n [0%nat] (<[0%nat := true]> (replicate n false)).
Proof.
  intros Hn. split.
  - by rewrite length_insert, length_replicate.
  - intros j Hj. rewrite list_elem_of_singleton.
    destruct (decide (j = 0%nat)) as [-> | Hne].
    + rewrite list_lookup_total_insert_eq by (rewrite length_replicate; lia).
      done.
    + rewrite list_lookup_total_insert_ne by done.
      rewrite lookup_total_replicate_2 by done. split; [done | done].
  - apply NoDup_singleton.
  - intros j ->%list_elem_of_singleton. done.
  - done.
Qed.

Lemma nn_inv_step n path visited j :
  nn_inv n path visited -> (j < n)%nat -> visited !!! j = false ->
  nn_inv n (path ++ [j]) (<[j := true]> visited).
Proof.
  intros [Hlen Hmarks Hnd Hbound Hhead] Hj Hv.
  assert (j ∉ path) as Hnotin.
  { intros Hin. apply Hmarks in Hin; [|done]. congruence. }
  split.
  - by rewrite length_insert.
  - intros i Hi. rewrite elem_of_app, list_elem_of_singleton.
    destruct (decide (i = j)) as [-> | Hne].
    + rewrite list_lookup_total_insert_eq by lia. split; [by right | done].
    + rewrite list_lookup_total_insert_ne by done. rewrite Hmarks by done.
      split; [by left | by intros [? | ?]].
  - apply NoDup_app. split; [done|]. split; [|apply NoDup_singleton].
    intros i Hi ->%list_elem_of_singleton. done.
  - intros i [Hi | ->%list_elem_of_singleton]%elem_of_app; [by apply Hbound | done].
  - destruct path; [done | done].
Qed.

(** While the path is shorter than the list of stops, an index is still
    unvisited. *)
Lemma nn_inv_unvisited n path visited :
  nn_inv n path visited -> (length path < n)%nat ->
  exists j, (j < n)%nat /\ visited !!! j = false.
Proof.
  intros [Hlen Hmarks Hnd Hbound Hhead] Hshort.
  destruct (decide (Forall (fun j => j ∈ path) (seq 0 n))) as [Hall | Hex].
  - exfalso. assert (seq 0 n ⊆+ path) as Hsub.
    { apply NoDup_submseteq; [apply NoDup_seq|].
      intros j Hj. by eapply Forall_forall in Hall. }
    apply submseteq_length in Hsub. rewrite length_seq in Hsub. lia.
  - apply not_Forall_Exists in Hex; [|apply _].
    apply Exists_exists in Hex as (j & Hj & Hnotin). cbn in Hnotin.
    apply elem_of_seq in Hj. exists j. split; [lia|].
    destruct (visited !!! j) eqn:Hv; [|done].
    exfalso. apply Hnotin, Hmarks; [lia | done].
Qed.

Lemma nearest_neighbor_loop_inv k stops path visited :
  nn_inv (length stops) path visited ->
  (length path + k = length stops)%nat ->
  exists path' visited',
    nearest_neighbor_loop dist k stops path visited = path'
    /\ nn_inv (length stops) path' visited'
    /\ length path' = length stops.
Proof.
  revert path visited. induction k as [|k IH]; intros path visited Hinv Hlen.
  - exists path, visited. split; [done|]. split; [done | lia].
  - cbn [nearest_neighbor_loop].
    destruct (nn_inv_unvisited _ _ _ Hinv) as (j & Hj & Hv); [lia|].
    destruct (find_nearest_finds stops visited (List.last path 0%nat) j Hj Hv)
      as [nearest Hnearest].
    rewrite Hnearest.
    apply find_nearest_sound in Hnearest as [Hlt Hunv].
    apply IH.
    + by apply nn_inv_step.
    + rewrite length_app. cbn. lia.
Qed.

(** The nearest-neighbour heuristic returns every index but 0 exactly
    once. *)
Lemma nearest_neighbor_permutation stops :
  stops <> [] ->
  exists order,
    _nearest_neighbor_tsp dist stops = Py.Returned order
    /\ order ≡ₚ seq 1 (length stops - 1).
Proof.
  intros Hne. unfold _nearest_neighbor_tsp.
  destruct stops as [|p stops]; [done|]. cbn [length Nat.eqb].
  eexists. split; [reflexivity|].
  destruct (nearest_neighbor_loop_inv (S (length stops) - 1) (p :: stops)
              [0%nat] (<[0%nat := true]> (replicate (S (length stops)) false)))
    as (path & visited & Hrun & Hinv & Hlen).
  { apply (nn_inv_init (S (length stops))). lia. }
  { cbn. lia. }
  cbn [length] in Hrun. rewrite Hrun.
  destruct Hinv as [_ _ Hnd Hbound Hhead].
  destruct path as [|i path]; [done|]. injection Hhead as ->.
  change (drop 1 (0%nat :: path)) with path.
  apply (Permutation_cons_inv (a := 0%nat)).
  change (0%nat :: seq 1 (S (length stops) - 1))
    with (seq 0 (S (S (length stops) - 1))).
  replace (S (S (length stops) - 1)) with (S (length stops)) by lia.
  apply submseteq_length_Permutation.
  - apply NoDup_submseteq; [done|].
    intros j Hj. apply elem_of_seq. apply Hbound in Hj. cbn in Hj. lia.
  - rewrite length_seq. cbn in Hlen. cbn. lia.
Qed.

End NearestNeighbor.

(** *** Ordering and scoring one vehicle's stops *)

Section Routing.
Context `{!Py.CaseMapping}.
Variable dist : point -> point -> Q.
Variable get_shortest_path : point -> point -> option (list Z * Q).

Lemma brute_force_raises (stops : list point) :
  _brute_force_tsp dist stops = Py.Raised (Py.NameError "num_steps").
Proof.
  unfold _brute_force_tsp, Py.load_name.
  by rewrite lookup_singleton_ne.
Qed.

Lemma solve_tsp_large (stops : list point) :
  (8 < length stops)%nat ->
  exists order,
    _solve_tsp dist stops = Py.Returned order
    /\ order ≡ₚ seq 1 (length stops - 1).
Proof.
  intros Hlen. unfold _solve_tsp.
  destruct (Nat.leb_spec (length stops) 8); [lia|].
  apply nearest_neighbor_permutation. intros ->. cbn in Hlen. lia.
Qed.

(** [_solve_tsp] only ever returns through the nearest-neighbour branch. *)
Lemma solve_tsp_returned (stops : list point) order :
  _solve_tsp dist stops = Py.Returned order ->
  (8 < length stops)%nat /\ order ≡ₚ seq 1 (length stops - 1).
Proof.
  intros Hrun. unfold _solve_tsp in Hrun.
  destruct (Nat.leb_spec (length stops) 8) as [Hle | Hgt].
  - by rewrite brute_force_raises in Hrun.
  - split; [done|].
    destruct (solve_tsp_large stops Hgt) as (order' & Hrun' & Hperm).
    unfold _solve_tsp in Hrun'.
    destruct (Nat.leb_spec (length stops) 8); [lia|]. congruence.
Qed.

Lemma at_index_all (l : list point) :
  at_index l <$> seq 0 (length l) = l.
Proof.
  induction l as [|p l IH]; [done|].
  cbn [length seq fmap list_fmap]. f_equal.
  rewrite <- fmap_S_seq, <- list_fmap_compose. exact IH.
Qed.

(** Reading [[depot] + cluster + [depot]] at the indices 1, 2, ... gives the
    cluster followed by one copy of the depot. *)
Lemma at_index_tail (depot : point) (cluster : list point) :
  at_index ([depot] ++ cluster ++ [depot])
    <$> seq 1 (length ([depot] ++ cluster ++ [depot]) - 1)
  = cluster ++ [depot].
Proof.
  cbn [app length]. rewrite Nat.sub_succ, Nat.sub_0_r.
  rewrite <- fmap_S_seq, <- list_fmap_compose.
  apply (at_index_all (cluster ++ [depot])).
Qed.

Lemma legs_length (route : list point) :
  length (legs route) = (length route - 1)%nat.
Proof. unfold legs. rewrite length_zip, length_drop. lia. Qed.

Lemma route_vehicle_returned depot tod acc v cluster acc' :
  cluster <> [] ->
  route_vehicle dist get_shortest_path depot tod acc (v, cluster)
    = Py.Returned acc' ->
  (7 <= length cluster)%nat
  /\ exists r, optimized_routes acc' = optimized_routes acc ++ [r]
             /\ routed depot r (v, cluster).
Proof.
  intros Hne Hrun. unfold route_vehicle in Hrun.
  destruct cluster as [|p cluster]; [done|].
  apply PyFacts.bind_returned in Hrun as (order & Htsp & Hrun).
  apply solve_tsp_returned in Htsp as [Hlen Hperm].
  split; [rewrite !length_app in Hlen; cbn in Hlen |- *; lia|].
  injection Hrun as <-. cbn [optimized_routes]. eexists. split; [done|].
  split; [done|]. cbn [route_stops fst snd].
  rewrite Hperm.
  change (depot :: p :: cluster ++ [depot])
    with ([depot] ++ (p :: cluster) ++ [depot]).
  by rewrite (at_index_tail depot (p :: cluster)).
Qed.

Lemma route_vehicle_large depot tod acc v cluster :
  (7 <= length cluster)%nat ->
  exists acc', route_vehicle dist get_shortest_path depot tod acc (v, cluster)
               = Py.Returned acc'.
Proof.
  intros Hlen. unfold route_vehicle.
  destruct cluster as [|p cluster]; [cbn in Hlen; lia|].
  destruct (solve_tsp_large ([depot] ++ (p :: cluster) ++ [depot]))
    as (order & -> & _).
  { rewrite !length_app. cbn in *. lia. }
  cbn. by eexists.
Qed.

Lemma route_vehicle_small depot tod acc v cluster :
  cluster <> [] -> (length cluster <= 6)%nat ->
  route_vehicle dist get_shortest_path depot tod acc (v, cluster)
  = Py.Raised (Py.NameError "num_steps").
Proof.
  intros Hne Hlen. unfold route_vehicle.
  destruct cluster as [|p cluster]; [done|].
  unfold _solve_tsp.
  destruct (Nat.leb_spec (length ([depot] ++ (p :: cluster) ++ [depot])) 8)
    as [_ | Hgt].
  - by rewrite brute_force_raises.
  - rewrite !length_app in Hgt. cbn in *. lia.
Qed.

Lemma route_vehicles_returned depot tod pairs acc acc' :
  Forall (fun vc : vehicle * list point => vc.2 <> []) pairs ->
  route_vehicles dist get_shortest_path depot tod pairs acc
    = Py.Returned acc' ->
  exists added,
    optimized_routes acc' = optimized_routes acc ++ added
    /\ Forall2 (routed depot) added pairs.
Proof.
  revert acc. induction pairs as [|[v cluster] pairs IH]; intros acc Hne Hrun.
  - cbn in Hrun. injection Hrun as <-. exists []. by rewrite app_nil_r.
  - apply Forall_cons in Hne as [Hc Hne]. cbn [route_vehicles] in Hrun.
    destruct (route_vehicle dist get_shortest_path depot tod acc (v, cluster))
      as [acc1| |] eqn:Hone; cbn in Hrun; [|done|done].
    apply route_vehicle_returned in Hone as (_ & r & Hroutes & Hr); [|done].
    destruct (IH acc1 Hne Hrun) as (added & Hacc' & Hall).
    exists (r :: added). split.
    + rewrite Hacc', Hroutes. by rewrite <- (assoc_L (++)).
    + by constructor.
Qed.

Lemma zip_clusters (vehicles : list vehicle) (clusters : list (list point)) :
  (zip vehicles clusters).*2 = take (length vehicles) clusters.
Proof.
  revert clusters. induction vehicles as [|v vehicles IH];
    intros [|c clusters]; cbn; [done | done | done |].
  f_equal. apply IH.
Qed.

(** C1 (as amended): with at least one vehicle and a positive bound,
    [_cluster_stops] returns a partition of the stops (every stop in exactly
    one cluster, no cluster empty or above the bound), and whenever
    [optimize_routes] returns, its routes are those of the first
    [len(vehicles)] clusters, in order: each route's stop sequence holds the
    stops of its cluster and one copy of the depot.  The clusters past the
    vehicle count get no route. *)
Theorem optimize_routes_routes_leading_clusters
    (fuel : nat) (vehicles : list vehicle) (stops : list point)
    (depot : point) (time_of_day : string) (max_stops_per_vehicle : Z) :
  vehicles <> [] -> (0 < max_stops_per_vehicle)%Z ->
  (length stops <= fuel)%nat ->
  exists clusters,
    _cluster_stops fuel stops (length vehicles) max_stops_per_vehicle
      = Py.Returned clusters
    /\ concat clusters ≡ₚ stops
    /\ Forall (fun c => c <> []
                 /\ (Z.of_nat (length c) <= max_stops_per_vehicle)%Z) clusters
    /\ forall sol,
         optimize_routes dist get_shortest_path fuel vehicles stops depot
           time_of_day max_stops_per_vehicle = Py.Returned sol ->
         Forall2 (fun r c => route_stops r ≡ₚ c ++ [depot])
           (routes sol) (take (length vehicles) clusters).
Proof.
  intros Hv Hm Hfuel.
  destruct (cluster_stops_partition fuel stops (length vehicles)
              max_stops_per_vehicle)
    as (clusters & Hrun & Hperm & Hall); [|done|done|].
  { destruct vehicles; [done | cbn; lia]. }
  exists clusters. split; [done|]. split; [done|]. split; [done|].
  intros sol Hsol. unfold optimize_routes in Hsol. rewrite Hrun in Hsol.
  apply PyFacts.bind_returned in Hsol as (clusters' & [= <-] & Hsol).
  apply PyFacts.bind_returned in Hsol as (acc & Hacc & [= <-]).
  apply route_vehicles_returned in Hacc as (added & Hroutes & Hadded).
  - cbn [routes]. rewrite Hroutes. cbn [optimized_routes app].
    rewrite <- zip_clusters. apply Forall2_fmap_r.
    eapply Forall2_impl; [exact Hadded|]. by intros r vc [_ Hr].
  - apply Forall_forall. intros [v c] Hin. cbn.
    apply elem_of_zip_r in Hin. eapply Forall_forall in Hall; [|done].
    by destruct Hall.
Qed.

(** C2: every list of at most eight points (the two copies of the depot
    included) goes to the brute-force solver, which raises [NameError]
    instead of returning an ordering. *)
Theorem solve_tsp_small_raises (stops : list point) :
  (length stops <= 8)%nat ->
  _solve_tsp dist stops = Py.Raised (Py.NameError "num_steps").
Proof.
  intros Hlen. unfold _solve_tsp.
  destruct (Nat.leb_spec (length stops) 8); [|lia].
  apply brute_force_raises.
Qed.

(** C4: for a cluster of seven or more stops away from the depot, the
    route that is built holds the stops and one copy of the depot, is
    scored over as many legs as it has stops (one fewer than a round trip
    has), and does not both begin and end at the depot. *)
Theorem route_vehicle_open_route
    (depot : point) (time_of_day : string) (acc : totals) (v : vehicle)
    (cluster : list point) :
  (7 <= length cluster)%nat -> depot ∉ cluster ->
  exists acc' r,
    route_vehicle dist get_shortest_path depot time_of_day acc (v, cluster)
      = Py.Returned acc'
    /\ optimized_routes acc' = optimized_routes acc ++ [r]
    /\ route_stops r ≡ₚ cluster ++ [depot]
    /\ length (legs (route_stops r)) = length cluster
    /\ ~ (head (route_stops r) = Some depot
          /\ last (route_stops r) = Some depot).
Proof.
  intros Hlen Hdepot.
  destruct (route_vehicle_large depot time_of_day acc v cluster Hlen)
    as [acc' Hrun].
  destruct (route_vehicle_returned depot time_of_day acc v cluster acc')
    as (_ & r & Hroutes & _ & Hperm); [|done|].
  { intros ->. cbn in Hlen. lia. }
  cbn [snd] in Hperm. exists acc', r.
  split; [done|]. split; [done|]. split; [done|].
  assert (length (route_stops r) = S (length cluster)) as Hsize.
  { rewrite Hperm, length_app. cbn. lia. }
  split; [rewrite legs_length; lia|].
  intros [Hhead Hlast].
  apply head_Some in Hhead as [l Hl]. rewrite Hl in Hlast, Hperm, Hsize.
  destruct l as [|q l]; [cbn in Hsize; lia|].
  rewrite last_cons_cons in Hlast. apply last_Some in Hlast as [l' Hl'].
  rewrite Hl' in Hperm.
  change (depot :: l' ++ [depot]) with ((depot :: l') ++ [depot]) in Hperm.
  apply Permutation_app_inv_r in Hperm.
  apply Hdepot. rewrite <- Hperm. by left.
Qed.

End Routing.

(** The samples are ASCII text: they are evaluated with [Py.ascii_only]. *)
#[local] Existing Instance Py.ascii_only.


(** C1: one vehicle, eight stops and a bound of seven stops per vehicle:
    the solution routes the first seven stops, and the eighth is in no
    route. *)
Lemma optimize_routes_drops_overflow_cluster :
  exists sol,
    optimize_routes taxicab direct_road 8 [sample_vehicle] sample_stops
      sample_depot "day" 7 = Py.Returned sol
    /\ ~ every_stop_routed sample_stops sol.
Proof.
  eexists. split; [vm_compute; reflexivity|].
  intros Hall. destruct (Hall (8, 0)%Q) as (r & Hr & Hs).
  { unfold sample_stops. apply elem_of_app. right. by left. }
  cbn [routes] in Hr. apply list_elem_of_singleton in Hr. subst r.
  cbn [route_stops] in Hs.
  repeat (apply elem_of_cons in Hs as [Hs | Hs]; [discriminate Hs|]).
  by apply elem_of_nil in Hs.
Qed.

Lemma optimize_routes_routes_leading_clusters_witness :
  exists clusters,
    _cluster_stops 8 sample_stops (length [sample_vehicle]) 7
      = Py.Returned clusters
    /\ concat clusters ≡ₚ sample_stops
    /\ Forall (fun c => c <> [] /\ (Z.of_nat (length c) <= 7)%Z) clusters
    /\ forall sol,
         optimize_routes taxicab direct_road 8 [sample_vehicle] sample_stops
           sample_depot "day" 7 = Py.Returned sol ->
         Forall2 (fun r c => route_stops r ≡ₚ c ++ [sample_depot])
           (routes sol) (take (length [sample_vehicle]) clusters).
Proof.
  apply (optimize_routes_routes_leading_clusters taxicab direct_road 8
           [sample_vehicle] sample_stops sample_depot "day" 7).
  - discriminate.
  - reflexivity.
  - vm_compute. lia.
Defined.

Lemma solve_tsp_small_raises_witness :
  _solve_tsp taxicab ([sample_depot] ++ take 2 sample_cluster ++ [sample_depot])
  = Py.Raised (Py.NameError "num_steps").
Proof.
  apply (solve_tsp_small_raises taxicab). vm_compute. lia.
Defined.

Lemma route_vehicle_open_route_witness :
  exists acc' r,
    route_vehicle taxicab direct_road sample_depot "day"
      {| optimized_routes := []; acc_distance := 0; acc_time := 0;
         acc_fuel := 0 |} (sample_vehicle, sample_cluster)
      = Py.Returned acc'
    /\ optimized_routes acc' = [] ++ [r]
    /\ route_stops r ≡ₚ sample_cluster ++ [sample_depot]
    /\ length (legs (route_stops r)) = length sample_cluster
    /\ ~ (head (route_stops r) = Some sample_depot
          /\ last (route_stops r) = Some sample_depot).
Proof.
  apply (route_vehicle_open_route taxicab direct_road sample_depot "day"
           {| optimized_routes := []; acc_distance := 0; acc_time := 0;
              acc_fuel := 0 |} sample_vehicle sample_cluster).
  - vm_compute. lia.
  - unfold sample_cluster, sample_depot. intros Hin.
    repeat (apply elem_of_cons in Hin as [Hin | Hin]; [discriminate Hin|]).
    by apply elem_of_nil in Hin.
Defined.

End RouteOptimizerFacts.

(** ** Frame queues *)

Module CameraFeedManagerFacts.
Import CameraFeedManager.

Section QueueFacts.
Context {A : Type}.
Implicit Types (q : queue A) (x : A) (frames : list A).

Lemma newest_app (cap : Z) (l k : list A) :
  newest cap (newest cap l ++ k) = newest cap (l ++ k).
Proof.
  unfold newest.
  rewrite <- (drop_app_le l k) by lia.
  rewrite drop_drop. f_equal.
  rewrite length_drop, !length_app. lia.
Qed.

(** One frame, whatever the workers do in the meantime: the put returns.
    A queue with room gets the frame at its end.  A full queue loses the
    frames the workers take and the one the handler takes, and gets the
    frame at its end, unless the workers leave nothing for the handler to
    take: then the queue stays empty. *)
Lemma enqueue_frame_outcome (w : interleaving) q x :
  bounded q ->
  enqueue_frame w q x
  = Py.Returned
      {| maxsize := maxsize q;
         items :=
           if full q then
             match drop (before_get w) (items q) with
             | [] => []
             | _ :: rest => drop (before_put w) rest ++ [x]
             end
           else items q ++ [x] |}.
Proof.
  intros [Hcap Hlen]. unfold enqueue_frame, put_nowait.
  destruct (full q) eqn:Hfull; [|done].
  unfold get_nowait, taken_by_workers. cbn [items maxsize].
  destruct (drop (before_get w) (items q)) as [|y rest] eqn:Hdrop; [done|].
  unfold full. cbn [items maxsize].
  destruct (Z.ltb_spec 0 (maxsize q)); [|lia]. cbn [andb].
  assert (length (y :: rest) <= length (items q))%nat as Hrest.
  { rewrite <- Hdrop, length_drop. lia. }
  cbn [length] in Hrest.
  destruct (Z.leb_spec (maxsize q)
              (Z.of_nat (length (drop (before_put w) rest)))) as [Hle|];
    [|done].
  rewrite length_drop in Hle. lia.
Qed.

(** With no worker in between, what was queued is kept as far as the bound
    allows, and the new frame is queued. *)
Lemma enqueue_frame_newest q x :
  bounded q ->
  enqueue_frame no_worker q x
  = Py.Returned {| maxsize := maxsize q;
                   items := newest (maxsize q) (items q ++ [x]) |}.
Proof.
  intros Hq. rewrite enqueue_frame_outcome by done.
  destruct Hq as [Hcap Hlen]. do 2 f_equal. unfold full, newest.
  destruct (Z.ltb_spec 0 (maxsize q)); [|lia]. cbn [andb].
  rewrite length_app. cbn [length no_worker before_get before_put drop].
  destruct (Z.leb_spec (maxsize q) (Z.of_nat (length (items q))))
    as [Hfull | Hroom].
  - destruct (items q) as [|y rest] eqn:Hitems.
    { cbn in Hfull. lia. }
    cbn [length] in Hfull, Hlen |- *.
    replace (S (length rest) + 1 - Z.to_nat (maxsize q))%nat with 1%nat by lia.
    reflexivity.
  - replace (length (items q) + 1 - Z.to_nat (maxsize q))%nat with 0%nat by lia.
    reflexivity.
Qed.

Lemma newest_bounded (cap : Z) (l : list A) :
  (0 < cap)%Z -> bounded {| maxsize := cap; items := newest cap l |}.
Proof.
  intros Hcap. split; [done|]. cbn. unfold newest. rewrite length_drop. lia.
Qed.

Lemma enqueue_frames_newest q frames :
  bounded q ->
  enqueue_frames q frames
  = Py.Returned {| maxsize := maxsize q;
                   items := newest (maxsize q) (items q ++ frames) |}.
Proof.
  revert q. induction frames as [|x frames IH]; intros q Hq.
  - cbn. destruct q as [cap l]. cbn in *. do 2 f_equal.
    destruct Hq as [Hcap Hlen]. cbn in *. rewrite app_nil_r. unfold newest.
    replace (length l - Z.to_nat cap)%nat with 0%nat by lia. reflexivity.
  - cbn [enqueue_frames]. rewrite enqueue_frame_newest by done.
    cbn [mbind result_bind Py.bind].
    rewrite IH by (apply newest_bounded, Hq). cbn [maxsize items].
    rewrite newest_app. by rewrite <- (assoc_L (++)).
Qed.


End QueueFacts.



(** *** Registering a camera twice *)

Section ManagerFacts.
Context {image callback : Type}.

Lemma add_camera_registered (m : manager image callback)
    (camera_id rtsp_url : string) (cb : option callback) :
  camera_id ∈ dom (camera_queues m) ->
  add_camera m camera_id rtsp_url cb = (Py.Returned (), m).
Proof.
  intros Hin. unfold add_camera. by rewrite bool_decide_eq_true_2.
Qed.

End ManagerFacts.

End CameraFeedManagerFacts.

(** ** The weather factor *)

Module WeatherFacts.
Import RouteOptimizationAgent.
Open Scope Q_scope.

(** Every entry of the condition table is at least 1, and so is the
    default. *)
Lemma condition_factors_get_ge_1 (k : string) :
  1 <= Py.get condition_factors k 1.0.
Proof.
  unfold Py.get. destruct (condition_factors !! k) as [v|] eqn:Hk; cbn.
  - apply elem_of_list_to_map_2 in Hk.
    change (1 <= (k, v).2). revert Hk. generalize (k, v).
    apply Forall_forall.
    repeat (constructor; [cbn; discriminate|]). constructor.
  - discriminate.
Qed.

(** The running maximum [factor = max(factor, c)] over the values [l]. *)
Lemma running_max_greatest (l : list Q) (b : Q) :
  let f := fold_left Py.max l b in
  Exists (Qeq f) (b :: l) /\ Forall (fun x => x <= f) (b :: l).
Proof.
  cbv zeta. revert b. induction l as [|c l IH]; intros b; cbn [fold_left].
  - split; [by left | constructor; [apply Qle_refl | constructor]].
  - destruct (IH (Py.max b c)) as [Hex Hall].
    apply Forall_cons in Hall as [Hmax Hall]. split.
    + apply Exists_cons in Hex as [Hhere | Hthere].
      * destruct (PyFacts.max_cases b c) as [Hb | Hc].
        -- left. eapply Qeq_trans; [exact Hhere|]. by rewrite Hb.
        -- right. left. eapply Qeq_trans; [exact Hhere|]. by rewrite Hc.
      * right. by right.
    + constructor; [|constructor; [|done]].
      * eapply Qle_trans; [apply PyFacts.max_ge_l | exact Hmax].
      * eapply Qle_trans; [apply PyFacts.max_ge_r | exact Hmax].
Qed.

Lemma raise_to_cascade (t1 t2 t3 : bool) (factor c1 c2 c3 : Q) :
  (if t1 then Py.max factor c1
   else if t2 then Py.max factor c2
   else if t3 then Py.max factor c3 else factor)
  = raise_to factor
      (if t1 then Some c1 else if t2 then Some c2
       else if t3 then Some c3 else None).
Proof. by destruct t1, t2, t3. Qed.

Lemma raise_to_test (t : bool) (factor c : Q) :
  (if t then Py.max factor c else factor)
  = raise_to factor (if t then Some c else None).
Proof. by destruct t. Qed.

Lemma raise_to_fold (o1 o2 o3 o4 : option Q) (b : Q) :
  raise_to (raise_to (raise_to (raise_to b o1) o2) o3) o4
  = fold_left Py.max (omap (fun v => v) [o1; o2; o3; o4]) b.
Proof. by destruct o1, o2, o3, o4. Qed.

(** The four adjustments of [_get_weather_factor] are a running maximum
    over the threshold values that apply. *)
Lemma get_weather_factor_fold `{!Py.CaseMapping} (loc : Q * Q) (w : weather_conditions) :
  _get_weather_factor loc w
  = Py.max 1.0
      (fold_left Py.max
         (omap (fun v => v)
            [precipitation_value w; wind_value w; visibility_value w;
             temperature_value w])
         (condition_base w)).
Proof.
  rewrite <- raise_to_fold.
  unfold _get_weather_factor, precipitation_value, wind_value,
    visibility_value, temperature_value, condition_base.
  cbv zeta. by rewrite !raise_to_cascade, raise_to_test.
Qed.

(** C5: the weather factor is the greatest of the sub-factors (the base
    value of the condition and the precipitation, wind, visibility and
    temperature values that apply), it is never below 1, and the table
    gives 1.0 for clear and clouds and 3.0 for tornado. *)
Theorem get_weather_factor_greatest `{!Py.CaseMapping} (loc : Q * Q)
    (w : weather_conditions) :
  let f := _get_weather_factor loc w in
  Exists (Qeq f) (sub_factors w)
  /\ Forall (fun x => x <= f) (sub_factors w)
  /\ 1 <= f
  /\ Py.get condition_factors "clear" 1.0 = 1.0
  /\ Py.get condition_factors "clouds" 1.0 = 1.0
  /\ Py.get condition_factors "tornado" 1.0 = 3.0.
Proof.
  cbv zeta. rewrite get_weather_factor_fold. unfold sub_factors.
  set (l := omap _ _).
  destruct (running_max_greatest l (condition_base w)) as [Hex Hall].
  set (f := fold_left Py.max l (condition_base w)) in *.
  assert (1 <= f) as Hf.
  { apply Forall_cons in Hall as [Hb _].
    eapply Qle_trans; [apply condition_factors_get_ge_1 | exact Hb]. }
  assert (Py.max 1.0 f == f) as Hmax.
  { unfold Py.max. destruct (Qlt_le_dec 1.0 f) as [_ | Hle]; [reflexivity|].
    apply Qle_antisym; [|exact Hle].
    eapply Qle_trans; [|exact Hf]. discriminate. }
  split; [|split; [|split]].
  - eapply Exists_impl; [exact Hex|]. cbn. intros x Hx.
    eapply Qeq_trans; [exact Hmax | exact Hx].
  - eapply Forall_impl; [exact Hall|]. cbn. intros x Hx.
    eapply Qle_trans; [exact Hx | apply PyFacts.max_ge_r].
  - eapply Qle_trans; [exact Hf | apply PyFacts.max_ge_r].
  - repeat split; vm_compute; reflexivity.
Qed.

End WeatherFacts.

(** ** Great-circle distance and the traffic factor *)

Module GeometryFacts.
Import RouteOptimizationAgent.
Open Scope R_scope.

(** The haversine term does not change when the two points are swapped. *)
Lemma sin_half_difference_sq (x y : R) :
  sin ((x - y) / 2) ^ 2 = sin ((y - x) / 2) ^ 2.
Proof.
  replace ((x - y) / 2) with (- ((y - x) / 2)) by lra.
  rewrite sin_neg. ring.
Qed.

Lemma sin_half_difference_self (x : R) : sin ((x - x) / 2) = 0.
Proof. replace ((x - x) / 2) with 0 by lra. apply sin_0. Qed.

Lemma int_0 : OrToolsRouteOptimizer.int 0 = 0%Z.
Proof.
  unfold OrToolsRouteOptimizer.int.
  destruct (Rle_dec 0 0) as [_ | Hn]; [|lra].
  apply (Int_part_INR 0).
Qed.

Lemma atan2_0_1 : OrToolsRouteOptimizer.atan2 0 1 = 0.
Proof.
  unfold OrToolsRouteOptimizer.atan2.
  destruct (Rlt_dec 0 1) as [_ | Hn]; [|lra].
  replace (0 / 1) with 0 by lra. apply atan_0.
Qed.

(** C10: both haversine distances, the one in kilometres of the agent and
    the one in whole metres of the OR-Tools optimizer, are symmetric and
    vanish between a point and itself. *)
Theorem haversine_symmetric_and_zero
    (a b : R * R) (p q : OrToolsRouteOptimizer.location) :
  _haversine a b = _haversine b a
  /\ _haversine a a = 0
  /\ OrToolsRouteOptimizer.haversine_distance p q
     = OrToolsRouteOptimizer.haversine_distance q p
  /\ OrToolsRouteOptimizer.haversine_distance p p = 0%Z.
Proof.
  destruct a as [lat1 lon1], b as [lat2 lon2].
  unfold _haversine, OrToolsRouteOptimizer.haversine_distance.
  refine (conj _ (conj _ (conj _ _))).
  - rewrite (sin_half_difference_sq (radians lat2) (radians lat1)).
    rewrite (sin_half_difference_sq (radians lon2) (radians lon1)).
    rewrite (Rmult_comm (cos (radians lat1)) (cos (radians lat2))).
    reflexivity.
  - rewrite !sin_half_difference_self.
    replace (0 ^ 2 + cos (radians lat1) * cos (radians lat1) * 0 ^ 2)
      with 0 by ring.
    rewrite sqrt_0, asin_0. ring.
  - rewrite (sin_half_difference_sq (radians (OrToolsRouteOptimizer.lat q))
               (radians (OrToolsRouteOptimizer.lat p))).
    rewrite (sin_half_difference_sq (radians (OrToolsRouteOptimizer.lng q))
               (radians (OrToolsRouteOptimizer.lng p))).
    rewrite (Rmult_comm (cos (radians (OrToolsRouteOptimizer.lat p)))
               (cos (radians (OrToolsRouteOptimizer.lat q)))).
    reflexivity.
  - rewrite !sin_half_difference_self.
    replace (0 ^ 2 + cos (radians (OrToolsRouteOptimizer.lat p))
                     * cos (radians (OrToolsRouteOptimizer.lat p)) * 0 ^ 2)
      with 0 by ring.
    rewrite Rminus_0_r, sqrt_0, sqrt_1, atan2_0_1.
    replace (6371000 * (2 * 0)) with 0 by ring.
    apply int_0.
Qed.

(** *** The traffic factor *)

(** The loop over the incidents multiplies the factor by the product of
    the factors of the incidents near the leg. *)
Lemma incident_fold_product (start end_ : R * R) (incidents : list incident)
    (base_factor : R) :
  fold_left (incident_step start end_) incidents base_factor
  = base_factor * incident_product start end_ incidents.
Proof.
  revert base_factor.
  induction incidents as [|inc incidents IH]; intros base_factor.
  - cbn. ring.
  - cbn [fold_left incident_product]. rewrite IH. unfold incident_step.
    destruct (Rlt_dec _ _); ring.
Qed.

(** C3 (as amended): the traffic factor is (1.0 + density * 1.5), the
    density being 0.5 when the traffic data has none, times 1.2, 1.5 or 2.0
    for every low, medium (or unrated) or other incident within 0.01
    degrees of the leg, and never below 1.0.  Without any traffic data it is
    1.75; it is 1.0 for a density of 0 without incidents. *)
Theorem get_traffic_factor_formula (start end_ : R * R)
    (conditions : traffic_conditions) :
  _get_traffic_factor start end_ conditions
  = Rmax 1
      ((1 + default 0.5 (tc_density conditions) * 1.5)
       * incident_product start end_
           (default [] (tc_incidents conditions)))
  /\ 1 <= _get_traffic_factor start end_ conditions
  /\ _get_traffic_factor start end_ no_traffic_data = 1.75
  /\ _get_traffic_factor start end_
       {| tc_density := Some 0; tc_incidents := None |} = 1
  /\ severity_factor "low" = 1.2
  /\ severity_factor "medium" = 1.5
  /\ severity_factor "high" = 2.0.
Proof.
  unfold _get_traffic_factor. rewrite !incident_fold_product.
  refine (conj _ (conj _ (conj _ (conj _ _)))).
  - f_equal; lra.
  - replace 1.0 with 1 by lra. apply Rmax_l.
  - cbn. rewrite Rmax_right; lra.
  - cbn. rewrite Rmax_left; lra.
  - repeat split; reflexivity.
Qed.

(** C3: with the empty traffic dictionary the factor is not 1.0. *)
Lemma get_traffic_factor_without_data :
  _get_traffic_factor (0, 0) (1, 1) no_traffic_data <> 1.0.
Proof.
  unfold _get_traffic_factor. cbn. rewrite Rmax_right; lra.
Qed.

End GeometryFacts.

(** ** Camera feeds of the agent *)

Module AgentFacts.
Import CameraFeedManager RouteOptimizationAgent.

Section CameraFacts.
Context {image callback : Type}.
Implicit Types (a : agent image callback).

(** When the detection collaborator fails, [_analyze_traffic] answers with
    the empty dictionary and leaves the agent as it is. *)
Lemma analyze_traffic_failure a (frame : image) (now : datetime) :
  detection_fails a frame ->
  _analyze_traffic a frame now = (EmptyDict, a).
Proof.
  intros (model & Hmodel & Hfail). unfold _analyze_traffic.
  rewrite Hmodel. unfold analyze.
  destruct Hfail as [[e He] | (boxes & update & e & Hb & Ht & Hne & He)].
  - by rewrite He.
  - rewrite Hb. cbn [mbind result_bind Py.bind]. rewrite Ht.
    destruct (filter _ boxes) as [|d l] eqn:Hf; [done|].
    by rewrite He.
Qed.

(** C8 (as amended): when the detection collaborator fails on a frame of a
    registered camera, no exception leaves [_process_camera_frame], the
    camera's traffic conditions become the empty dictionary and its last
    update the current time; its location and status, the other cameras and
    the rest of the agent stay as they were. *)
Theorem process_camera_frame_detection_failure a (camera_id : string)
    (fd : frame_data image) (cb : option callback) (now : datetime)
    (entry : camera_entry) :
  camera_data a !! camera_id = Some entry ->
  detection_fails a (fd_frame fd) ->
  let a' := (_process_camera_frame a camera_id fd cb now).1 in
  camera_data a'
  = <[camera_id :=
        {| location := location entry; last_update := now;
           camera_traffic_conditions := EmptyDict;
           status := status entry |}]> (camera_data a)
  /\ active_cameras a' = active_cameras a
  /\ camera_manager a' = camera_manager a
  /\ traffic_density a' = traffic_density a.
Proof.
  intros Hentry Hfail. cbv zeta. unfold _process_camera_frame.
  rewrite Hentry. cbn [location status camera_traffic_conditions].
  rewrite analyze_traffic_failure.
  - cbn. by rewrite insert_insert_eq.
  - destruct Hfail as (model & Hmodel & Hcases). by exists model.
Qed.

(** C9 (as amended): registering a camera that is already registered
    returns like any other call (no exception) and changes nothing, in the
    manager and in the agent. *)
Theorem add_camera_twice_is_ignored a
    (m : manager image (string * option callback))
    (camera_id rtsp_url : string) (loc : Q * Q)
    (cb : option callback) (pf : option (string * option callback)) :
  camera_id ∈ active_cameras a ->
  camera_id ∈ dom (camera_queues m) ->
  add_camera_feed a camera_id rtsp_url loc cb = (Py.Returned (), a)
  /\ @add_camera image (string * option callback) m camera_id rtsp_url pf
     = (Py.Returned (), m).
Proof.
  intros Ha Hm. split.
  - unfold add_camera_feed. by rewrite bool_decide_eq_true_2.
  - by apply CameraFeedManagerFacts.add_camera_registered.
Qed.

End CameraFacts.

(** The entry of "cam1" after frame 1: twelve vehicles, congested, density
    0.24, last updated at time 100. *)
Lemma cam1_entry :
  exists data,
    camera_data cam1_agent !! "cam1"
    = Some {| location := (12.97, 77.59)%Q; last_update := 100%nat;
              camera_traffic_conditions := data; status := "active" |}
    /\ congested_with 12 0.24 data.
Proof. eexists. split; [vm_compute; reflexivity|]. by vm_compute. Qed.

Lemma cam1_detection_fails : detection_fails cam1_agent (fd_frame (sample_frame 2)).
Proof.
  exists sample_detector. split; [reflexivity|]. left.
  exists (Py.RuntimeError "inference failed"). reflexivity.
Qed.

(** C8: the camera had traffic conditions with twelve vehicles; after a
    frame on which the detector raises they are the empty dictionary. *)
Lemma process_camera_frame_resets_conditions :
  detection_fails cam1_agent (fd_frame (sample_frame 2))
  /\ (exists data,
        camera_traffic_conditions <$> camera_data cam1_agent !! "cam1"
        = Some data /\ congested_with 12 0.24 data)
  /\ camera_traffic_conditions
       <$> camera_data
             (_process_camera_frame cam1_agent "cam1" (sample_frame 2) None
                200%nat).1 !! "cam1"
     = Some EmptyDict.
Proof.
  split; [apply cam1_detection_fails|]. split.
  - destruct cam1_entry as (data & Hentry & Hdata).
    exists data. by rewrite Hentry.
  - vm_compute. reflexivity.
Qed.

Lemma process_camera_frame_detection_failure_witness :
  exists entry,
    camera_data cam1_agent !! "cam1" = Some entry
    /\ let a' := (_process_camera_frame cam1_agent "cam1" (sample_frame 2)
                    None 200%nat).1 in
       camera_data a'
       = <["cam1" :=
             {| location := location entry; last_update := 200%nat;
                camera_traffic_conditions := EmptyDict;
                status := status entry |}]> (camera_data cam1_agent)
       /\ active_cameras a' = active_cameras cam1_agent
       /\ camera_manager a' = camera_manager cam1_agent
       /\ traffic_density a' = traffic_density cam1_agent.
Proof.
  eexists. split; [vm_compute; reflexivity|].
  apply (process_camera_frame_detection_failure cam1_agent "cam1"
           (sample_frame 2) None 200%nat).
  - vm_compute. reflexivity.
  - exists sample_detector. split; [reflexivity|]. left.
    exists (Py.RuntimeError "inference failed"). reflexivity.
Defined.

(** C9: registering "cam1" a second time raises no error: the call
    returns as a first registration does. *)
Lemma add_camera_twice_raises_nothing :
  "cam1" ∈ dom (camera_queues (camera_manager cam1_agent))
  /\ "cam1" ∈ active_cameras cam1_agent
  /\ (forall e,
        (add_camera (camera_manager cam1_agent) "cam1" "rtsp://other"
           None).1
        <> Py.Raised e)
  /\ (forall e,
        (add_camera_feed cam1_agent "cam1" "rtsp://other" (0, 0)%Q None).1
        <> Py.Raised e).
Proof.
  split; [|split; [|split]].
  - vm_compute. reflexivity.
  - vm_compute. reflexivity.
  - intros e. unfold add_camera. by destruct (bool_decide _).
  - intros e. unfold add_camera_feed.
    destruct (bool_decide _); [done|]. by destruct (add_camera _ _ _ _).
Qed.

Lemma add_camera_twice_is_ignored_witness :
  add_camera_feed cam1_agent "cam1" "rtsp://other" (0, 0)%Q None
  = (Py.Returned (), cam1_agent)
  /\ @add_camera nat (string * option unit) (camera_manager cam1_agent)
       "cam1" "rtsp://other" None
     = (Py.Returned (), camera_manager cam1_agent).
Proof.
  apply (add_camera_twice_is_ignored cam1_agent (camera_manager cam1_agent)
           "cam1" "rtsp://other" (0, 0)%Q None None).
  - vm_compute. reflexivity.
  - vm_compute. reflexivity.
Defined.

End AgentFacts.

(** ** Route optimisation: edge cases and totals *)

Module RouteOptimizerEdgeFacts.
Import RouteOptimizer RouteOptimizerFacts.

Section ClusterEdges.
Context {A : Type}.
Implicit Types (stops cluster : list A) (clusters : list (list A)).

(** The first cluster, once it holds a stop, keeps holding one. *)
Lemma round_robin_head (n i : nat) stops cluster clusters :
  cluster <> [] ->
  exists cluster' clusters',
    round_robin (S n) i stops (cluster :: clusters)
      = Py.Returned (cluster' :: clusters')
    /\ cluster' <> [].
Proof.
  revert i cluster clusters.
  induction stops as [|stop stops IH]; intros i cluster clusters Hne.
  - by exists cluster, clusters.
  - cbn [round_robin Nat.eqb].
    destruct (i mod S n)%nat as [|j]; cbn [alter list_alter].
    + apply IH. by destruct cluster.
    + by apply IH.
Qed.

(** With a bound of zero or less the [while] loop never ends on a cluster
    that holds a stop. *)
Lemma split_cluster_no_end (fuel : nat) (m : Z) final cluster :
  (m <= 0)%Z -> cluster <> [] -> split_cluster fuel m final cluster = None.
Proof.
  intros Hm. revert final cluster.
  induction fuel as [|fuel IH]; intros final cluster Hne;
    cbn [split_cluster];
    (destruct (Z.ltb_spec m (Z.of_nat (length cluster))) as [_ | Hlen];
     [|destruct cluster; [done | cbn in Hlen; lia]]); [done|].
  apply IH. unfold Py.slice_from.
  destruct (Z.leb_spec 0 m).
  - replace m with 0%Z by lia. by rewrite drop_0.
  - intros Hnil. apply (f_equal length) in Hnil.
    rewrite length_drop in Hnil. cbn in Hnil.
    destruct cluster; [done | cbn in Hnil; lia].
Qed.

(** A bound of zero or less: [_cluster_stops] does not return for any
    request that has a stop, whatever the iteration budget. *)
Theorem cluster_stops_bound_not_positive
    (fuel : nat) (stop : A) stops (n : nat) (m : Z) :
  (m <= 0)%Z -> _cluster_stops fuel (stop :: stops) (S n) m = Py.OutOfFuel.
Proof.
  intros Hm. unfold _cluster_stops. cbn [round_robin Nat.eqb replicate].
  rewrite Nat.Div0.mod_0_l. cbn [alter list_alter app].
  destruct (round_robin_head n 1 stops [stop] (replicate n []))
    as (cluster & clusters & -> & Hne); [done|].
  cbn [mbind result_bind Py.bind enforce_max].
  by rewrite split_cluster_no_end.
Qed.

(** Clusters without stops leave [final_clusters] as it is, when the
    bound is not negative. *)
Lemma enforce_max_empty_clusters (fuel n : nat) (m : Z) final :
  (0 <= m)%Z ->
  enforce_max fuel m (replicate n ([] : list A)) final = Py.Returned final.
Proof.
  intros Hm. induction n as [|n IH]; [done|].
  cbn [replicate enforce_max].
  assert (split_cluster fuel m final [] = Some (final, [])) as ->; [|done].
  destruct fuel; cbn [split_cluster length];
    by destruct (Z.ltb_spec m (Z.of_nat 0)); [lia|].
Qed.

End ClusterEdges.

Section RoutingEdges.
Context `{!Py.CaseMapping}.
Variable dist : point -> point -> Q.
Variable get_shortest_path : point -> point -> option (list Z * Q).

(** A request with stops and no vehicle: the round-robin assignment divides
    by zero.  A request without stops, with a bound that is not negative:
    the solution has no route, totals of zero and no vehicle used. *)
Theorem optimize_routes_no_vehicle (fuel : nat) (vehicles : list vehicle)
    (stop : point) (stops : list point) (depot : point)
    (time_of_day : string) (m : Z) :
  optimize_routes dist get_shortest_path fuel [] (stop :: stops) depot
    time_of_day m
  = Py.Raised Py.ZeroDivisionError
  /\ ((0 <= m)%Z ->
      optimize_routes dist get_shortest_path fuel vehicles [] depot
        time_of_day m
      = Py.Returned
          {| routes := [];
             solution_summary :=
               {| total_distance_km := 0; total_time_minutes := 0;
                  total_fuel_liters := 0; total_emissions_kg := 0 * 2.31;
                  num_vehicles_used := 0 |} |}).
Proof.
  split; [reflexivity|]. intros Hm. unfold optimize_routes, _cluster_stops.
  cbn [round_robin mbind result_bind Py.bind].
  rewrite enforce_max_empty_clusters by done.
  cbn [mbind result_bind Py.bind]. by destruct vehicles.
Qed.

Lemma route_vehicles_first_small depot tod acc v cluster pairs :
  cluster <> [] -> (length cluster <= 6)%nat ->
  route_vehicles dist get_shortest_path depot tod ((v, cluster) :: pairs) acc
  = Py.Raised (Py.NameError "num_steps").
Proof.
  intros Hne Hlen. cbn [route_vehicles].
  by rewrite (route_vehicle_small dist get_shortest_path).
Qed.

(** A bound of at most six stops per vehicle, the default of five
    included: every request with a vehicle and a stop ends in the
    [NameError] of the brute-force solver; no solution is returned. *)
Theorem optimize_routes_small_bound (fuel : nat) (v : vehicle)
    (vehicles : list vehicle) (stop : point) (stops : list point)
    (depot : point) (time_of_day : string) (m : Z) :
  (0 < m <= 6)%Z -> (length (stop :: stops) <= fuel)%nat ->
  optimize_routes dist get_shortest_path fuel (v :: vehicles)
    (stop :: stops) depot time_of_day m
  = Py.Raised (Py.NameError "num_steps").
Proof.
  intros Hm Hfuel. unfold optimize_routes.
  destruct (cluster_stops_partition fuel (stop :: stops)
              (length (v :: vehicles)) m)
    as (clusters & -> & Hperm & Hall); [cbn; lia | lia | done |].
  cbn [mbind result_bind Py.bind].
  destruct clusters as [|cluster clusters].
  { apply Permutation_nil_cons in Hperm. done. }
  apply Forall_cons in Hall as [[Hne Hlen] _].
  cbn [zip zip_with]. rewrite route_vehicles_first_small; [done | done | lia].
Qed.

(** *** Scoring a route *)

Lemma metrics_fold (ls : list (point * point)) (d t : Q) :
  let step (acc : Q * Q) (leg : point * point) :=
    let '(origin, dest) := leg in
    match get_shortest_path origin dest with
    | Some (_, segment_time) =>
        (acc.1 + dist origin dest, acc.2 + segment_time)
    | None => acc
    end in
  let r := fold_left step ls (d, t) in
  (r.1 == d + Py.sum ((fun leg => dist leg.1 leg.2)
                         <$> List.filter (connected get_shortest_path) ls))%Q
  /\ (r.2 == t + Py.sum (segment_time get_shortest_path <$> List.filter (connected get_shortest_path) ls))%Q.
Proof.
  cbv zeta. revert d t. induction ls as [|[o e] ls IH]; intros d t.
  - cbn. split; ring.
  - cbn [fold_left List.filter].
    destruct (get_shortest_path o e) as [[nodes w]|] eqn:Hpath.
    + assert (connected get_shortest_path (o, e) = true) as ->.
      { unfold connected. cbn [fst snd]. by rewrite Hpath. }
      assert (segment_time get_shortest_path (o, e) = w) as Hw.
      { unfold segment_time. cbn [fst snd]. by rewrite Hpath. }
      destruct (IH (d + dist o e)%Q (t + w)%Q) as [Hd Ht].
      cbn [fst snd] in *. rewrite Hd, Ht.
      cbn [fmap list_fmap fst snd]. rewrite Hw.
      change (Py.sum (?x :: ?l)) with (x + Py.sum l)%Q.
      split; ring.
    + assert (connected get_shortest_path (o, e) = false) as ->.
      { unfold connected. cbn [fst snd]. by rewrite Hpath. }
      apply IH.
Qed.

(** [_calculate_route_metrics]: a leg without a path in the road network is
    passed over.  The distance is the sum of the distances of the other
    legs, the time the sum of their path weights over 60, the fuel what
    [calculate_fuel_consumption] gives for that distance at 50 km/h on an
    average road, and the emissions 2.31 times the fuel. *)
Theorem calculate_route_metrics_sums (v : vehicle) (route : list point)
    (time_of_day : string) :
  let r := _calculate_route_metrics dist get_shortest_path v route
             time_of_day in
  let ls := List.filter (connected get_shortest_path) (legs route) in
  (metrics_distance_km r == Py.sum ((fun leg => dist leg.1 leg.2) <$> ls))%Q
  /\ (metrics_time_minutes r == Py.sum (segment_time get_shortest_path <$> ls) / 60)%Q
  /\ (metrics_fuel_liters r
      == FuelCalculator.base_rate (Py.lower (vehicle_type_of v))
         * (1 + 0.001 * default 0 (vehicle_load_kg v)) * 1.2 / 100
         * metrics_distance_km r)%Q
  /\ (metrics_emissions_kg r == metrics_fuel_liters r * 2.31)%Q.
Proof.
  cbv zeta. unfold _calculate_route_metrics.
  pose proof (metrics_fold (legs route) 0 0) as Hfold. cbv zeta in Hfold.
  destruct (fold_left _ (legs route) (0%Q, 0%Q)) as [d t] eqn:Hrun.
  cbn [fst snd] in Hfold. destruct Hfold as [Hd Ht].
  cbn [metrics_distance_km metrics_time_minutes metrics_fuel_liters
       metrics_emissions_kg].
  refine (conj _ (conj _ (conj _ _))).
  - rewrite Hd. ring.
  - rewrite Ht. field.
  - unfold FuelCalculator.calculate_fuel_consumption.
    cbn [FuelCalculator.total_fuel_liters].
    rewrite FuelCalculatorFacts.base_consumption_get.
    replace (Py.get FuelCalculator.factors_road_condition
               (Py.lower "average") 0.2%Q) with 0.2%Q by (by vm_compute).
    replace (Py.max 0 (50 - FuelCalculator.factors_speed_optimal))
      with 0%Q by (by vm_compute).
    unfold FuelCalculator.factors_load, FuelCalculator.factors_speed_penalty,
      FuelCalculator.factors_elevation.
    field.
  - reflexivity.
Qed.

(** *** The summary *)

Lemma route_vehicle_totals depot tod acc vc acc' :
  route_vehicle dist get_shortest_path depot tod acc vc = Py.Returned acc' ->
  exists added,
    optimized_routes acc' = optimized_routes acc ++ added
    /\ (acc_distance acc'
        == acc_distance acc + Py.sum (route_distance_km <$> added))%Q
    /\ (acc_time acc'
        == acc_time acc + Py.sum (route_time_minutes <$> added))%Q
    /\ (acc_fuel acc'
        == acc_fuel acc + Py.sum (route_fuel_liters <$> added))%Q
    /\ Forall (fun r => (2 < length (route_stops r))%nat) added.
Proof.
  destruct vc as [v cluster]. intros Hrun. unfold route_vehicle in Hrun.
  destruct cluster as [|p cluster].
  - injection Hrun as <-. exists []. rewrite app_nil_r. cbn.
    refine (conj _ (conj _ (conj _ (conj _ _))));
      [done | ring | ring | ring | constructor].
  - apply PyFacts.bind_returned in Hrun as (order & Htsp & Hrun).
    apply solve_tsp_returned in Htsp as [Hlen Hperm].
    injection Hrun as <-. eexists [_].
    cbn [optimized_routes acc_distance acc_time acc_fuel].
    split; [reflexivity|].
    cbn [fmap list_fmap route_distance_km route_time_minutes
         route_fuel_liters].
    unfold Py.sum. cbn [foldr].
    refine (conj _ (conj _ (conj _ _))); [ring | ring | ring |].
    constructor; [|constructor]. cbn [route_stops].
    rewrite length_fmap, Hperm, length_seq. lia.
Qed.

Lemma route_vehicles_totals depot tod pairs acc acc' :
  route_vehicles dist get_shortest_path depot tod pairs acc
    = Py.Returned acc' ->
  exists added,
    optimized_routes acc' = optimized_routes acc ++ added
    /\ (acc_distance acc'
        == acc_distance acc + Py.sum (route_distance_km <$> added))%Q
    /\ (acc_time acc'
        == acc_time acc + Py.sum (route_time_minutes <$> added))%Q
    /\ (acc_fuel acc'
        == acc_fuel acc + Py.sum (route_fuel_liters <$> added))%Q
    /\ Forall (fun r => (2 < length (route_stops r))%nat) added.
Proof.
  revert acc. induction pairs as [|vc pairs IH]; intros acc Hrun.
  - injection Hrun as <-. exists []. rewrite app_nil_r. cbn.
    refine (conj _ (conj _ (conj _ (conj _ _))));
      [done | ring | ring | ring | constructor].
  - cbn [route_vehicles] in Hrun.
    apply PyFacts.bind_returned in Hrun as (acc1 & Hone & Hrest).
    apply route_vehicle_totals in Hone
      as (added1 & Hr1 & Hd1 & Ht1 & Hf1 & Hall1).
    apply IH in Hrest as (added2 & Hr2 & Hd2 & Ht2 & Hf2 & Hall2).
    exists (added1 ++ added2).
    rewrite Hr2, Hr1, Hd2, Hd1, Ht2, Ht1, Hf2, Hf1, !fmap_app.
    rewrite !PyFacts.sum_app, (assoc_L (++)).
    refine (conj _ (conj _ (conj _ (conj _ _))));
      [done | ring | ring | ring | by apply Forall_app].
Qed.

(** Whenever [optimize_routes] returns, the totals of the summary are the
    sums of the distances, times and fuel of the routes, the emissions are
    2.31 times the total fuel, and every route counts as a vehicle used. *)
Theorem optimize_routes_summary (fuel : nat) (vehicles : list vehicle)
    (stops : list point) (depot : point) (time_of_day : string) (m : Z)
    (sol : solution) :
  optimize_routes dist get_shortest_path fuel vehicles stops depot
    time_of_day m = Py.Returned sol ->
  let s := solution_summary sol in
  (total_distance_km s == Py.sum (route_distance_km <$> routes sol))%Q
  /\ (total_time_minutes s == Py.sum (route_time_minutes <$> routes sol))%Q
  /\ (total_fuel_liters s == Py.sum (route_fuel_liters <$> routes sol))%Q
  /\ (total_emissions_kg s == total_fuel_liters s * 2.31)%Q
  /\ num_vehicles_used s = length (routes sol).
Proof.
  intros Hsol. unfold optimize_routes in Hsol.
  apply PyFacts.bind_returned in Hsol as (clusters & _ & Hsol).
  apply PyFacts.bind_returned in Hsol as (acc & Hacc & [= <-]).
  apply route_vehicles_totals in Hacc as (added & Hr & Hd & Ht & Hf & Hall).
  cbn in Hr, Hd, Ht, Hf. subst added.
  cbn [solution_summary routes total_distance_km total_time_minutes
       total_fuel_liters total_emissions_kg num_vehicles_used].
  rewrite Hd, Ht, Hf.
  refine (conj _ (conj _ (conj _ (conj _ _))));
    [ring | ring | ring | reflexivity |].
  f_equal. clear -Hall. induction Hall as [|r l Hr Hall IH]; [done|].
  rewrite filter_cons_True by done. by rewrite IH.
Qed.

End RoutingEdges.

(** The samples are ASCII text: they are evaluated with [Py.ascii_only]. *)
#[local] Existing Instance Py.ascii_only.


Lemma cluster_stops_bound_not_positive_witness :
  _cluster_stops 1000 (sample_depot :: sample_cluster) 2 0 = Py.OutOfFuel.
Proof.
  apply (cluster_stops_bound_not_positive 1000 sample_depot sample_cluster
           1 0). lia.
Defined.

Lemma optimize_routes_small_bound_witness :
  optimize_routes taxicab direct_road 8 [sample_vehicle] sample_stops
    sample_depot "day" 5
  = Py.Raised (Py.NameError "num_steps").
Proof.
  apply (optimize_routes_small_bound taxicab direct_road 8 sample_vehicle []
           (1, 0)%Q (drop 1 sample_stops) sample_depot "day" 5).
  - lia.
  - vm_compute. lia.
Defined.

Lemma optimize_routes_summary_witness :
  exists sol,
    optimize_routes taxicab direct_road 8 [sample_vehicle] sample_stops
      sample_depot "day" 7 = Py.Returned sol
    /\ let s := solution_summary sol in
       (total_distance_km s == Py.sum (route_distance_km <$> routes sol))%Q
       /\ (total_time_minutes s
           == Py.sum (route_time_minutes <$> routes sol))%Q
       /\ (total_fuel_liters s
           == Py.sum (route_fuel_liters <$> routes sol))%Q
       /\ (total_emissions_kg s == total_fuel_liters s * 2.31)%Q
       /\ num_vehicles_used s = length (routes sol).
Proof.
  eexists. split; [vm_compute; reflexivity|].
  apply (optimize_routes_summary taxicab direct_road 8 [sample_vehicle]
           sample_stops sample_depot "day" 7).
  vm_compute. reflexivity.
Defined.

End RouteOptimizerEdgeFacts.

(** ** The two travelling-salesman solvers *)

Module TspFacts.
Import RouteOptimizer RouteOptimizerFacts.

Section Greedy.
Variable dist : point -> point -> Q.
Open Scope Q_scope.

Lemma scanned_step stops visited last a st :
  scanned dist stops visited last a st ->
  scanned dist stops visited last (S a)
    (nearest_step dist stops visited last st a).
Proof.
  intros Hst. unfold nearest_step.
  destruct (visited !!! a) eqn:Hva; cbn [negb].
  - destruct st as [[j|] [d|]]; cbn in *; try done.
    + destruct Hst as (Hd & Hj & Hvj & Hmin).
      split; [done|]. split; [lia|]. split; [done|].
      intros k Hk Hvk. apply Hmin; [|done].
      destruct (decide (k = a)) as [-> | Hne]; [congruence | lia].
    + intros k Hk. destruct (decide (k = a)) as [-> | Hne]; [done|].
      apply Hst. lia.
  - fold (hop dist stops last a).
    destruct st as [[j|] [d|]]; cbn [snd below scanned] in *; try done.
    + destruct Hst as (-> & Hj & Hvj & Hmin).
      destruct (Qlt_le_dec (hop dist stops last a) (hop dist stops last j))
        as [Hlt | Hle].
      * split; [done|]. split; [lia|]. split; [done|].
        intros k Hk Hvk. destruct (decide (k = a)) as [-> | Hne].
        -- split; [apply Qle_refl | lia].
        -- destruct (Hmin k) as [Hjk _]; [lia | done |].
           assert (hop dist stops last a < hop dist stops last k)
             by (eapply Qlt_le_trans; [exact Hlt | exact Hjk]).
           split; [by apply Qlt_le_weak | done].
      * split; [done|]. split; [lia|]. split; [done|].
        intros k Hk Hvk. destruct (decide (k = a)) as [-> | Hne].
        -- split; [done | lia].
        -- apply Hmin; [lia | done].
    + split; [done|]. split; [lia|]. split; [done|].
      intros k Hk Hvk. destruct (decide (k = a)) as [-> | Hne].
      * split; [apply Qle_refl | lia].
      * rewrite Hst in Hvk by lia. done.
Qed.

Lemma scanned_all stops visited last a :
  scanned dist stops visited last a
    (fold_left (nearest_step dist stops visited last) (seq 0 a) (None, None)).
Proof.
  induction a as [|a IH]; [by intros k Hk; lia|].
  rewrite seq_S, fold_left_app. cbn [fold_left Nat.add].
  by apply scanned_step.
Qed.

(** The inner loop picks the nearest unvisited index, the lowest one when
    several are equally near. *)
Lemma find_nearest_nearest stops visited last j :
  find_nearest dist stops visited last = Some j ->
  nearest_among dist stops last j
    (fun k => (k < length stops)%nat /\ visited !!! k = false).
Proof.
  unfold find_nearest. intros Hj.
  pose proof (scanned_all stops visited last (length stops)) as Hsc.
  destruct (fold_left _ _ _) as [[j'|] [d|]]; cbn in Hj, Hsc; try done.
  injection Hj as ->. destruct Hsc as (_ & Hlt & Hv & Hmin).
  split; [done|]. intros k [Hk Hvk]. by apply Hmin.
Qed.

Lemma last_lookup_total (path : list nat) :
  path <> [] -> List.last path 0%nat = path !!! (length path - 1)%nat.
Proof.
  induction path as [|i path IH]; [done|]. intros _.
  destruct path as [|i' path]; [done|].
  change (List.last (i :: i' :: path) 0%nat) with (List.last (i' :: path) 0%nat).
  rewrite IH by done. cbn [length]. rewrite !Nat.sub_succ, !Nat.sub_0_r.
  reflexivity.
Qed.

Lemma greedy_path_snoc stops path visited j :
  nn_inv (length stops) path visited ->
  greedy_path dist stops path ->
  nearest_among dist stops (List.last path 0%nat) j
    (fun k => (k < length stops)%nat /\ visited !!! k = false) ->
  greedy_path dist stops (path ++ [j]).
Proof.
  intros Hinv Hgreedy [Hcand Hmin] i j' Hlook.
  assert (path <> []) as Hne.
  { destruct Hinv as [_ _ _ _ Hhead]. by destruct path. }
  destruct (decide (S i < length path)%nat) as [Hold | Hnew].
  - rewrite lookup_app_l in Hlook by done.
    rewrite take_app_le by lia. rewrite lookup_total_app_l by lia.
    by apply Hgreedy.
  - apply lookup_lt_Some in Hlook as Hbound.
    rewrite length_app in Hbound. cbn in Hbound.
    assert (S i = length path) as Hi by lia.
    rewrite Hi, list_lookup_middle in Hlook by done. injection Hlook as <-.
    rewrite Hi, take_app_length, lookup_total_app_l by lia.
    replace i with (length path - 1)%nat by lia.
    rewrite <- last_lookup_total by done.
    destruct Hinv as [_ Hmarks _ _ _]. split.
    + destruct Hcand as [Hj Hvj]. split; [done|].
      intros Hin. apply Hmarks in Hin; [congruence | done].
    + intros k [Hk Hnotin]. apply Hmin. split; [done|].
      destruct (visited !!! k) eqn:Hvk; [|done].
      exfalso. by apply Hnotin, Hmarks.
Qed.

Lemma nearest_neighbor_loop_greedy k stops path visited :
  nn_inv (length stops) path visited ->
  greedy_path dist stops path ->
  (length path + k = length stops)%nat ->
  let path' := nearest_neighbor_loop dist k stops path visited in
  greedy_path dist stops path' /\ head path' = Some 0%nat
  /\ path' ≡ₚ seq 0 (length stops).
Proof.
  cbv zeta. revert path visited.
  induction k as [|k IH]; intros path visited Hinv Hgreedy Hlen.
  - cbn [nearest_neighbor_loop]. split; [done|].
    destruct Hinv as [_ _ Hnd Hbound Hhead]. split; [done|].
    apply submseteq_length_Permutation.
    + apply NoDup_submseteq; [done|].
      intros j Hj. apply elem_of_seq. apply Hbound in Hj. lia.
    + rewrite length_seq. lia.
  - cbn [nearest_neighbor_loop].
    destruct (nn_inv_unvisited _ _ _ Hinv) as (j & Hj & Hv); [lia|].
    destruct (find_nearest_finds dist stops visited (List.last path 0%nat)
                j Hj Hv) as [nearest Hnearest].
    rewrite Hnearest.
    pose proof (find_nearest_nearest _ _ _ _ Hnearest) as Hnear.
    apply find_nearest_sound in Hnearest as [Hlt Hunv].
    apply IH.
    + by apply nn_inv_step.
    + by eapply greedy_path_snoc.
    + rewrite length_app. cbn. lia.
Qed.

(** [_nearest_neighbor_tsp] raises [IndexError] on the empty list.  On any
    other list it returns every index but 0 exactly once, and each index of
    the order is the nearest to the one before it (index 0 for the first)
    among the indices not yet visited, the lowest such index on a tie. *)
Theorem nearest_neighbor_tsp_greedy (stops : list point) :
  match stops with
  | [] => _nearest_neighbor_tsp dist stops = Py.Raised Py.IndexError
  | _ :: _ =>
      exists order,
        _nearest_neighbor_tsp dist stops = Py.Returned order
        /\ order ≡ₚ seq 1 (length stops - 1)
        /\ greedy_path dist stops (0%nat :: order)
  end.
Proof.
  destruct stops as [|p stops]; [done|].
  unfold _nearest_neighbor_tsp. cbn [length Nat.eqb].
  eexists. split; [reflexivity|].
  destruct (nearest_neighbor_loop_greedy (S (length stops) - 1) (p :: stops)
              [0%nat] (<[0%nat := true]> (replicate (S (length stops)) false)))
    as (Hgreedy & Hhead & Hperm).
  { apply (nn_inv_init (S (length stops))). lia. }
  { intros i j Hlook. by destruct i. }
  { cbn. lia. }
  cbn [length] in Hgreedy, Hhead, Hperm.
  destruct (nearest_neighbor_loop _ _ _ _ _) as [|i path]; [done|].
  injection Hhead as ->. change (drop 1 (0%nat :: path)) with path.
  split; [|done].
  apply (Permutation_cons_inv (a := 0%nat)). rewrite Hperm.
  cbn [seq]. by rewrite Nat.sub_succ, Nat.sub_0_r.
Qed.

End Greedy.

(** *** The permutation search of the brute-force solver *)

Section Permutations.
Context {A : Type}.
Implicit Types (l p : list A).





End Permutations.

Section Argmin.
Context {X V : Type} (cost : X -> Q) (val : X -> V).
Open Scope Q_scope.


End Argmin.

Section BruteForce.
Variable dist : point -> point -> Q.
Open Scope Q_scope.


End BruteForce.

End TspFacts.

(** ** Fuel consumption: bounds *)

Module FuelCalculatorBounds.
Import FuelCalculator.
Open Scope Q_scope.

Lemma base_rate_at_least (k : string) : 7.5 <= base_rate k.
Proof.
  unfold base_rate.
  repeat (destruct (String.eqb k _); [discriminate|]). discriminate.
Qed.

Lemma road_condition_not_negative (k : string) :
  0 <= Py.get factors_road_condition k 0.2.
Proof.
  unfold Py.get, factors_road_condition.
  repeat (rewrite lookup_insert; case_decide; [cbn; discriminate|]).
  rewrite lookup_singleton. case_decide; cbn; discriminate.
Qed.

Lemma scale_up (x f : Q) : 0 <= x -> 1 <= f -> x <= x * f.
Proof. intros Hx Hf. nra. Qed.

(** With a load and an elevation gain that are not negative, none of the
    four factors is below 1: the adjusted consumption is at least the base
    consumption, which is at least 7.5 l/100km; over a distance that is not
    negative the fuel is at least what the base consumption gives, and the
    emissions are not negative. *)
Theorem fuel_at_least_base_consumption `{!Py.CaseMapping}
    (distance_km load_kg avg_speed_kmh elevation_gain_m : Q)
    (vehicle_type road_condition : string) :
  0 <= distance_km -> 0 <= load_kg -> 0 <= elevation_gain_m ->
  let r := calculate_fuel_consumption distance_km vehicle_type load_kg
             avg_speed_kmh elevation_gain_m road_condition in
  1 <= factor_load r /\ 1 <= factor_speed r /\ 1 <= factor_elevation r
  /\ 1 <= factor_road_condition r
  /\ 7.5 <= base_consumption_l_per_100km r
  /\ base_consumption_l_per_100km r <= adjusted_consumption_l_per_100km r
  /\ base_consumption_l_per_100km r / 100 * distance_km
     <= total_fuel_liters r
  /\ 0 <= emissions_kg_co2 r.
Proof.
  intros Hd Hl He. cbv zeta. unfold calculate_fuel_consumption.
  cbn [factor_load factor_speed factor_elevation factor_road_condition
       base_consumption_l_per_100km adjusted_consumption_l_per_100km
       total_fuel_liters emissions_kg_co2].
  rewrite FuelCalculatorFacts.base_consumption_get.
  pose proof (base_rate_at_least (Py.lower vehicle_type)) as Hbase.
  pose proof (road_condition_not_negative (Py.lower road_condition)) as Hroad.
  pose proof (PyFacts.max_ge_l 0 (avg_speed_kmh - factors_speed_optimal))
    as Hspeed.
  set (base := base_rate (Py.lower vehicle_type)) in *.
  set (road := Py.get factors_road_condition (Py.lower road_condition) 0.2)
    in *.
  set (speed_diff := Py.max 0 (avg_speed_kmh - factors_speed_optimal)) in *.
  unfold factors_load, factors_speed_penalty, factors_elevation.
  setoid_replace (speed_diff * 0.1 / 100) with (speed_diff * 0.001)
    using relation Qeq by field.
  setoid_replace (elevation_gain_m / 10 * 0.1 / 100)
    with (elevation_gain_m * 0.0001)
    using relation Qeq by field.
  assert (1 <= 1 + 0.001 * load_kg) as H1 by lra.
  assert (1 <= 1 + speed_diff * 0.001) as H2 by lra.
  assert (1 <= 1 + elevation_gain_m * 0.0001) as H3 by lra.
  assert (1 <= 1 + road) as H4 by lra.
  assert (0 <= base) as H0 by lra.
  set (lf := 1 + 0.001 * load_kg) in *.
  set (sf := 1 + speed_diff * 0.001) in *.
  set (ef := 1 + elevation_gain_m * 0.0001) in *.
  set (rf := 1 + road) in *.
  assert (base <= base * lf * sf * ef * rf) as Hadj.
  { pose proof (scale_up base lf H0 H1).
    pose proof (scale_up (base * lf) sf ltac:(lra) H2).
    pose proof (scale_up (base * lf * sf) ef ltac:(lra) H3).
    pose proof (scale_up (base * lf * sf * ef) rf ltac:(lra) H4).
    lra. }
  refine (conj H1 (conj H2 (conj H3 (conj H4 (conj Hbase (conj Hadj _)))))).
  set (adj := base * lf * sf * ef * rf) in *.
  setoid_replace (base / 100 * distance_km) with (base * distance_km * 0.01)
    using relation Qeq by field.
  setoid_replace (adj / 100 * distance_km) with (adj * distance_km * 0.01)
    using relation Qeq by field.
  split; nra.
Qed.

(** The samples are ASCII text: they are evaluated with [Py.ascii_only]. *)
#[local] Existing Instance Py.ascii_only.

Lemma fuel_at_least_base_consumption_witness :
  let r := calculate_fuel_consumption 150 "truck" 5000 70 300 "average" in
  1 <= factor_load r /\ 1 <= factor_speed r /\ 1 <= factor_elevation r
  /\ 1 <= factor_road_condition r
  /\ 7.5 <= base_consumption_l_per_100km r
  /\ base_consumption_l_per_100km r <= adjusted_consumption_l_per_100km r
  /\ base_consumption_l_per_100km r / 100 * 150 <= total_fuel_liters r
  /\ 0 <= emissions_kg_co2 r.
Proof.
  apply (fuel_at_least_base_consumption 150 5000 70 300 "truck" "average");
    discriminate.
Defined.

End FuelCalculatorBounds.

(** ** The camera feed manager: invariant, round trip, order of frames *)

Module CameraFeedManagerInvariant.
Import CameraFeedManager CameraFeedManagerFacts.

Section Invariant.
Context {image callback : Type}.
Implicit Types (m : manager image callback) (o : op image callback).

Lemma consistent_new (cap : Z) :
  (0 < cap)%Z -> consistent (@new_manager image callback cap).
Proof.
  intros Hcap. split; [done|]. cbn. split; [by rewrite !dom_empty_L|].
  split; [by rewrite !dom_empty_L|]. apply map_Forall_empty.
Qed.

Lemma consistent_add m camera_id rtsp_url cb :
  consistent m -> consistent (add_camera m camera_id rtsp_url cb).2.
Proof.
  intros (Hcap & Hdom & Hcb & Hq). unfold add_camera.
  case_bool_decide as Hin; [done|]. cbn [snd].
  split; [done|]. cbn. split; [|split].
  - rewrite !dom_insert_L. by rewrite Hdom.
  - destruct cb; rewrite ?dom_insert_L; set_solver.
  - apply map_Forall_insert_2; [|done]. cbn. split; [done | lia].
Qed.

Lemma consistent_remove m camera_id :
  consistent m -> consistent (remove_camera m camera_id).
Proof.
  intros (Hcap & Hdom & Hcb & Hq). unfold remove_camera.
  case_bool_decide as Hin; [|done].
  split; [done|]. cbn. split; [|split].
  - rewrite !dom_delete_L. by rewrite Hdom.
  - rewrite !dom_delete_L. set_solver.
  - by apply map_Forall_delete.
Qed.

Lemma consistent_capture m camera_id frame timestamp w m' :
  consistent m ->
  capture_frame m camera_id frame timestamp w = Py.Returned m' ->
  consistent m'.
Proof.
  intros (Hcap & Hdom & Hcb & Hq) Hrun. unfold capture_frame in Hrun.
  destruct (camera_queues m !! camera_id) as [q|] eqn:Hlook; [|done].
  destruct (Hq camera_id q Hlook) as [Hmax Hlen].
  rewrite enqueue_frame_outcome in Hrun by (split; lia).
  injection Hrun as <-.
  assert (camera_id ∈ dom (camera_queues m)) as Hin by (by apply elem_of_dom).
  split; [done|]. cbn. split; [|split].
  - rewrite dom_insert_L. set_solver.
  - rewrite dom_insert_L. set_solver.
  - apply map_Forall_insert_2; [|done]. cbn. split; [done|].
    destruct (full q) eqn:Hfull.
    + destruct (drop (before_get w) (items q)) as [|y rest] eqn:Hdrop;
        [cbn; lia|].
      apply (f_equal length) in Hdrop. rewrite length_drop in Hdrop.
      cbn [length] in Hdrop.
      rewrite length_app, length_drop. cbn [length]. lia.
    + unfold full in Hfull. rewrite length_app. cbn [length].
      destruct (Z.ltb_spec 0 (maxsize q)); [|lia]. cbn [andb] in Hfull.
      apply Z.leb_gt in Hfull. lia.
Qed.

Lemma consistent_process m camera_id :
  consistent m -> consistent (process_queue m camera_id).1.
Proof.
  intros (Hcap & Hdom & Hcb & Hq). unfold process_queue.
  destruct (camera_queues m !! camera_id) as [q|] eqn:Hlook; [|done].
  unfold get_nowait. destruct (items q) as [|fd rest] eqn:Hitems; [done|].
  destruct (Hq camera_id q Hlook) as [Hmax Hlen].
  assert (camera_id ∈ dom (camera_queues m)) as Hin by (by apply elem_of_dom).
  split; [done|]. cbn. split; [|split].
  - rewrite dom_insert_L. set_solver.
  - rewrite dom_insert_L. set_solver.
  - apply map_Forall_insert_2; [|done]. cbn. split; [done|].
    rewrite Hitems in Hlen. cbn in Hlen. lia.
Qed.

Lemma consistent_apply m o : consistent m -> consistent (apply_op m o).
Proof.
  intros Hm. destruct o as [id url cb | id | id frame ts w | id]; cbn.
  - by apply consistent_add.
  - by apply consistent_remove.
  - destruct (capture_frame m id frame ts w) as [m'| |] eqn:Hrun;
      [|done|done].
    by eapply consistent_capture.
  - by apply consistent_process.
Qed.

Lemma consistent_run m (ops : list (op image callback)) :
  consistent m -> consistent (run m ops).
Proof.
  revert m. induction ops as [|o ops IH]; intros m Hm; [done|].
  apply IH. by apply consistent_apply.
Qed.

Lemma max_queue_size_run m (ops : list (op image callback)) :
  max_queue_size (run m ops) = max_queue_size m.
Proof.
  revert m. induction ops as [|o ops IH]; intros m; [done|].
  cbn [run foldl]. fold (run (apply_op m o) ops). rewrite IH.
  destruct o as [id url cb | id | id frame ts w | id]; cbn.
  - unfold add_camera. by case_bool_decide.
  - unfold remove_camera. by case_bool_decide.
  - unfold capture_frame.
    destruct (camera_queues m !! id) as [q|]; [|done].
    by destruct (enqueue_frame w q _) as [q'| |].
  - unfold process_queue. destruct (camera_queues m !! id) as [q|]; [|done].
    by destruct (get_nowait q) as [[fd q']| |].
Qed.

(** After any sequence of registrations, removals, captured frames and
    worker steps on a new manager with a positive bound, the cameras with a
    queue are those with a capture thread, every callback belongs to such
    a camera, and no queue holds more frames than the bound. *)
Theorem manager_stays_consistent (cap : Z) (ops : list (op image callback)) :
  (0 < cap)%Z ->
  let m := run (new_manager cap) ops in
  dom (camera_threads m) = dom (camera_queues m)
  /\ dom (callbacks m) ⊆ dom (camera_queues m)
  /\ map_Forall (fun _ size => (Z.of_nat size <= cap)%Z) (queue_sizes m).
Proof.
  intros Hcap. cbv zeta.
  destruct (consistent_run (new_manager cap) ops (consistent_new cap Hcap))
    as (_ & Hdom & Hcb & Hq).
  split; [done|]. split; [done|].
  intros id size Hsize. unfold queue_sizes in Hsize.
  apply lookup_fmap_Some in Hsize as (q & <- & Hlook).
  destruct (Hq id q Hlook) as [_ Hlen].
  by rewrite max_queue_size_run in Hlen.
Qed.

(** *** Registering and removing *)

Lemma remove_camera_lookup m camera_id (k : string) :
  consistent m ->
  camera_queues (remove_camera m camera_id) !! k
  = (if decide (k = camera_id) then None else camera_queues m !! k)
  /\ camera_threads (remove_camera m camera_id) !! k
     = (if decide (k = camera_id) then None else camera_threads m !! k)
  /\ callbacks (remove_camera m camera_id) !! k
     = (if decide (k = camera_id) then None else callbacks m !! k).
Proof.
  intros (Hcap & Hdom & Hcb & Hq). unfold remove_camera.
  case_bool_decide as Hin; cbn.
  - rewrite !lookup_delete. by repeat case_decide.
  - case_decide as Hk; [subst k|done].
    repeat split; apply not_elem_of_dom; set_solver.
Qed.

Lemma remove_cameras_lookup m (ids : list string) (k : string) :
  consistent m ->
  let m' := foldl remove_camera m ids in
  camera_queues m' !! k
  = (if decide (k ∈ ids) then None else camera_queues m !! k)
  /\ camera_threads m' !! k
     = (if decide (k ∈ ids) then None else camera_threads m !! k)
  /\ callbacks m' !! k
     = (if decide (k ∈ ids) then None else callbacks m !! k).
Proof.
  cbv zeta. revert m. induction ids as [|id ids IH]; intros m Hm.
  - cbn. repeat case_decide; try done; by apply elem_of_nil in H.
  - cbn [foldl].
    destruct (IH (remove_camera m id) (consistent_remove m id Hm))
      as (-> & -> & ->).
    destruct (remove_camera_lookup m id k Hm) as (-> & -> & ->).
    repeat split; repeat case_decide; try done; set_solver.
Qed.

(** [stop] on a manager reached from a new one leaves no queue, no capture
    thread and no callback. *)
Theorem stop_removes_everything (cap : Z) (ops : list (op image callback)) :
  (0 < cap)%Z ->
  let m := stop (run (new_manager cap) ops) in
  camera_queues m = ∅ /\ camera_threads m = ∅ /\ callbacks m = ∅.
Proof.
  intros Hcap. cbv zeta. unfold stop.
  set (m := run (new_manager cap) ops).
  pose proof (consistent_run (new_manager cap) ops (consistent_new cap Hcap))
    as Hm. fold m in Hm.
  destruct Hm as (Hc & Hdom & Hcb & Hq).
  repeat split; apply map_empty; intros k;
    destruct (remove_cameras_lookup m (elements (dom (camera_threads m))) k)
      as (Hq' & Ht' & Hc'); try (by split); cbv zeta in *;
    rewrite ?Hq', ?Ht', ?Hc'; case_decide as Hin; try done;
    rewrite elem_of_elements in Hin; apply not_elem_of_dom; set_solver.
Qed.

Lemma add_remove_consistent m (camera_id rtsp_url : string)
    (cb : option callback) :
  consistent m -> camera_id ∉ dom (camera_queues m) ->
  remove_camera (add_camera m camera_id rtsp_url cb).2 camera_id = m.
Proof.
  intros (Hc & Hdom & Hcb & Hq) Hfresh. unfold add_camera, remove_camera.
  rewrite (bool_decide_eq_false_2 (camera_id ∈ dom (camera_queues m)))
    by exact Hfresh.
  cbn.
  rewrite bool_decide_eq_true_2 by (rewrite dom_insert_L; set_solver).
  destruct m as [mx qs ts cbs]. cbn in *. f_equal.
  - by apply delete_insert_id, not_elem_of_dom.
  - apply delete_insert_id, not_elem_of_dom. set_solver.
  - destruct cb.
    + apply delete_insert_id, not_elem_of_dom. set_solver.
    + apply delete_id, not_elem_of_dom. set_solver.
Qed.

(** Registering a camera that has no queue and removing it again gives
    back the manager, for every manager reached from a new one. *)
Theorem add_then_remove_camera (cap : Z) (ops : list (op image callback))
    (camera_id rtsp_url : string) (cb : option callback) :
  (0 < cap)%Z ->
  let m := run (new_manager cap) ops in
  camera_id ∉ dom (camera_queues m) ->
  remove_camera (add_camera m camera_id rtsp_url cb).2 camera_id = m.
Proof.
  intros Hcap. cbv zeta. apply add_remove_consistent.
  by apply consistent_run, consistent_new.
Qed.

End Invariant.

(** *** The order of the frames *)

Section Fifo.
Context {A : Type}.

Lemma poll_all (n : nat) (q : queue A) :
  (length (items q) <= n)%nat ->
  poll n q = (items q, {| maxsize := maxsize q; items := [] |}).
Proof.
  revert q. induction n as [|n IH]; intros [cap l] Hlen; cbn in Hlen.
  - destruct l; [done | cbn in Hlen; lia].
  - cbn [poll]. unfold get_nowait. cbn [items maxsize].
    destruct l as [|x l]; [done|].
    rewrite IH by (cbn in *; lia). done.
Qed.

(** Frames pushed onto a new queue with a positive bound and then polled
    until the queue is empty come out in the order they were pushed; when
    more were pushed than the bound, exactly the oldest ones are missing. *)
Theorem frames_come_out_in_order (cap : Z) (frames : list A) (n : nat) :
  (0 < cap)%Z -> (length frames <= n)%nat ->
  exists q,
    enqueue_frames (new_queue cap) frames = Py.Returned q
    /\ (poll n q).1 = drop (length frames - Z.to_nat cap) frames.
Proof.
  intros Hcap Hn. eexists. split.
  - apply enqueue_frames_newest. split; [done | cbn; lia].
  - rewrite poll_all.
    + reflexivity.
    + cbn. unfold newest. rewrite length_drop. lia.
Qed.

End Fifo.

Lemma manager_stays_consistent_witness :
  let m := run (image := nat) (callback := unit) (new_manager 2)
             [Add "cam1" "rtsp://cam1" (Some tt);
              Capture "cam1" 1%nat "t1" no_worker;
              Capture "cam1" 2%nat "t2" no_worker;
              Capture "cam1" 3%nat "t3" {| before_get := 1; before_put := 0 |};
              Work "cam1"; Remove "cam2"] in
  dom (camera_threads m) = dom (camera_queues m)
  /\ dom (callbacks m) ⊆ dom (camera_queues m)
  /\ map_Forall (fun _ size => (Z.of_nat size <= 2)%Z) (queue_sizes m).
Proof.
  apply (manager_stays_consistent (image := nat) (callback := unit) 2). lia.
Defined.

Lemma stop_removes_everything_witness :
  let m := stop (run (image := nat) (callback := unit) (new_manager 2)
                   [Add "cam1" "rtsp://cam1" (Some tt);
                    Add "cam2" "rtsp://cam2" None;
                    Capture "cam1" 1%nat "t1" no_worker]) in
  camera_queues m = ∅ /\ camera_threads m = ∅ /\ callbacks m = ∅.
Proof.
  apply (stop_removes_everything (image := nat) (callback := unit) 2). lia.
Defined.

Lemma add_then_remove_camera_witness :
  let m := run (image := nat) (callback := unit) (new_manager 2)
             [Add "cam1" "rtsp://cam1" (Some tt)] in
  remove_camera (add_camera m "cam2" "rtsp://cam2" (Some tt)).2 "cam2" = m.
Proof.
  apply (add_then_remove_camera (image := nat) (callback := unit) 2
           [Add "cam1" "rtsp://cam1" (Some tt)] "cam2" "rtsp://cam2"
           (Some tt)).
  - lia.
  - apply not_elem_of_dom. vm_compute. reflexivity.
Defined.

Lemma frames_come_out_in_order_witness :
  exists q,
    enqueue_frames (new_queue 2) [1; 2; 3]%nat = Py.Returned q
    /\ (poll 3 q).1 = drop (length [1; 2; 3]%nat - Z.to_nat 2) [1; 2; 3]%nat.
Proof.
  apply (frames_come_out_in_order 2 [1; 2; 3]%nat 3); [lia | cbn; lia].
Defined.

End CameraFeedManagerInvariant.

(** ** The agent: traffic analysis, camera bookkeeping, factors *)

Module AgentCameraFacts.
Import CameraFeedManager RouteOptimizationAgent.
Import CameraFeedManagerInvariant.

Section Analysis.
Context {image callback : Type}.
Implicit Types (a : agent image callback).



(** Without a tracker, or without a model, [_analyze_traffic] returns the
    empty dictionary whatever the detector finds on the frame. *)
Theorem analyze_traffic_without_tracker a (frame : image) (now : datetime) :
  tracker a = None \/ yolo_model a = None ->
  _analyze_traffic a frame now = (EmptyDict, a).
Proof.
  intros Hnone. unfold _analyze_traffic.
  destruct (yolo_model a) as [model|]; [|done].
  destruct Hnone as [Htracker | Hmodel]; [|done].
  unfold analyze. rewrite Htracker.
  by destruct (model frame) as [boxes| |].
Qed.

(** The agent after [_analyze_traffic]: as before when the result is the
    empty dictionary, with [traffic_density] set to the density of the
    analysis otherwise. *)
Lemma analyze_traffic_agent a (frame : image) (now : datetime) :
  let r := _analyze_traffic a frame now in
  r.2 = set_traffic_density a (density_after a r.1).
Proof.
  assert (a = set_traffic_density a (traffic_density a)) as Hsame
    by (by destruct a).
  cbv zeta. unfold _analyze_traffic.
  destruct (yolo_model a) as [model|]; [|done].
  unfold analyze. destruct (model frame) as [boxes| |]; cbn; [|done|done].
  destruct (tracker a) as [update|]; [|done].
  destruct (filter _ boxes) as [|d ds]; [done|].
  by destruct (update (d :: ds)) as [targets| |].
Qed.

Lemma analyze_traffic_cameras a (frame : image) (now : datetime) :
  let a' := (_analyze_traffic a frame now).2 in
  camera_data a' = camera_data a /\ active_cameras a' = active_cameras a
  /\ camera_manager a' = camera_manager a.
Proof.
  cbv zeta. by rewrite analyze_traffic_agent.
Qed.

Lemma process_camera_frame_footprint a (camera_id : string)
    (fd : frame_data image) (cb : option callback) (now : datetime) :
  let r := _process_camera_frame a camera_id fd cb now in
  active_cameras r.1 = active_cameras a
  /\ camera_manager r.1 = camera_manager a
  /\ dom (camera_data r.1) = dom (camera_data a).
Proof.
  cbv zeta. unfold _process_camera_frame.
  destruct (camera_data a !! camera_id) as [entry|] eqn:Hentry; [|done].
  set (a1 := set_camera_data a _).
  pose proof (analyze_traffic_cameras a1 (fd_frame fd) now) as Hsame.
  cbv zeta in Hsame.
  destruct (_analyze_traffic a1 (fd_frame fd) now) as [data a2].
  cbn [snd] in Hsame. destruct Hsame as (Hcd & Hac & Hcm).
  cbn [fst set_camera_data active_cameras camera_manager camera_data].
  rewrite Hcd, Hac, Hcm. subst a1.
  cbn [set_camera_data camera_data active_cameras camera_manager].
  split; [done|]. split; [done|].
  rewrite !dom_insert_L. apply elem_of_dom_2 in Hentry. set_solver.
Qed.


(** *** The cameras of the agent and of its manager *)

Lemma in_step_new model update (cap : Z) :
  (0 < cap)%Z -> cameras_in_step (@new_agent image callback model update cap).
Proof.
  intros Hcap. split; [|split].
  - cbn. by rewrite dom_empty_L.
  - cbn. by rewrite dom_empty_L.
  - by apply consistent_new.
Qed.

Lemma in_step_add a (camera_id rtsp_url : string) (loc : Q * Q)
    (cb : option callback) :
  cameras_in_step a ->
  cameras_in_step (add_camera_feed a camera_id rtsp_url loc cb).2.
Proof.
  intros (Hdata & Hqueues & Hm). unfold add_camera_feed.
  case_bool_decide as Hactive; [done|].
  pose proof (consistent_add (camera_manager a) camera_id rtsp_url
                (Some (camera_id, cb)) Hm) as Hm'.
  assert (dom (camera_queues
                 (add_camera (camera_manager a) camera_id rtsp_url
                    (Some (camera_id, cb))).2)
          = {[camera_id]} ∪ active_cameras a) as Hq'.
  { unfold add_camera. rewrite bool_decide_eq_false_2 by (by rewrite Hqueues).
    cbn. by rewrite dom_insert_L, Hqueues. }
  destruct (add_camera _ _ _ _) as [r m]. cbn [snd] in *.
  split; [|split]; cbn; [|done|done].
  by rewrite dom_insert_L, Hdata.
Qed.

Lemma in_step_remove a (camera_id : string) :
  cameras_in_step a -> cameras_in_step (remove_camera_feed a camera_id).
Proof.
  intros (Hdata & Hqueues & Hm). unfold remove_camera_feed.
  case_bool_decide as Hactive; [|done].
  split; [|split]; cbn.
  - by rewrite dom_delete_L, Hdata.
  - unfold remove_camera.
    rewrite bool_decide_eq_true_2 by (by rewrite Hqueues). cbn.
    by rewrite dom_delete_L, Hqueues.
  - by apply consistent_remove.
Qed.

Lemma in_step_frame a (camera_id : string) (fd : frame_data image)
    (cb : option callback) (now : datetime) :
  cameras_in_step a ->
  cameras_in_step (_process_camera_frame a camera_id fd cb now).1.
Proof.
  intros (Hdata & Hqueues & Hm).
  destruct (process_camera_frame_footprint a camera_id fd cb now)
    as (Hac & Hcm & Hdom).
  split; [|split]; rewrite ?Hcm, ?Hac, ?Hdom; done.
Qed.

Lemma in_step_run a (ops : list (agent_op image callback)) :
  cameras_in_step a -> cameras_in_step (run_agent a ops).
Proof.
  revert a. induction ops as [|o ops IH]; intros a Ha; [done|].
  apply IH. destruct o as [id url loc cb | id | id fd cb now]; cbn.
  - by apply in_step_add.
  - by apply in_step_remove.
  - by apply in_step_frame.
Qed.

(** After any sequence of added feeds, removed feeds and processed frames
    on an agent that started without cameras, the active cameras are the
    cameras with an entry in [camera_data] and the cameras with a queue in
    the manager, and [get_camera_status] reports every entry. *)
Theorem agent_cameras_in_step model update (cap : Z)
    (ops : list (agent_op image callback)) :
  (0 < cap)%Z ->
  let a := run_agent (new_agent model update cap) ops in
  dom (camera_data a) = active_cameras a
  /\ dom (camera_queues (camera_manager a)) = active_cameras a
  /\ get_camera_status a = camera_data a.
Proof.
  intros Hcap. cbv zeta.
  destruct (in_step_run (new_agent model update cap) ops
              (in_step_new model update cap Hcap)) as (Hdata & Hq & _).
  split; [done|]. split; [done|].
  unfold get_camera_status. apply map_filter_id. intros id entry Hentry.
  cbn. rewrite <- Hdata. by apply elem_of_dom_2 in Hentry.
Qed.

(** Adding a feed for a camera that is not active and removing it again
    gives back the agent, for every agent that started without cameras. *)
Theorem add_feed_then_remove model update (cap : Z)
    (ops : list (agent_op image callback)) (camera_id rtsp_url : string)
    (loc : Q * Q) (cb : option callback) :
  (0 < cap)%Z ->
  let a := run_agent (new_agent model update cap) ops in
  camera_id ∉ active_cameras a ->
  remove_camera_feed (add_camera_feed a camera_id rtsp_url loc cb).2
    camera_id = a.
Proof.
  intros Hcap. cbv zeta.
  pose proof (in_step_run (new_agent model update cap) ops
                (in_step_new model update cap Hcap)) as Ha.
  generalize dependent (run_agent (new_agent model update cap) ops).
  intros a (Hdata & Hq & Hm) Hfresh.
  pose proof (add_remove_consistent (camera_manager a) camera_id rtsp_url
                (Some (camera_id, cb)) Hm) as Hround.
  unfold add_camera_feed. rewrite bool_decide_eq_false_2 by done.
  destruct (add_camera _ _ _ _) as [r m]. cbn [snd] in *.
  unfold remove_camera_feed. cbn [active_cameras].
  rewrite bool_decide_eq_true_2 by set_solver.
  destruct a as [y t d cd ac cm]. cbn in *. f_equal.
  - apply delete_insert_id, not_elem_of_dom. by rewrite Hdata.
  - set_solver.
  - apply Hround. by rewrite Hq.
Qed.

End Analysis.

Lemma analyze_traffic_without_tracker_witness :
  _analyze_traffic (new_agent (callback := unit) (Some sample_detector) None 10)
    1%nat 100%nat
  = (EmptyDict, new_agent (Some sample_detector) None 10).
Proof.
  apply (analyze_traffic_without_tracker
           (new_agent (callback := unit) (Some sample_detector) None 10)
           1%nat 100%nat).
  left. reflexivity.
Defined.

Lemma agent_cameras_in_step_witness :
  let a := run_agent (new_agent (Some sample_detector) (Some sample_tracker) 10)
             [AddFeed "cam1" "rtsp://cam1" (12.97, 77.59)%Q (Some tt);
              Frame "cam1" (sample_frame 1) (Some tt) 100%nat;
              RemoveFeed "cam2"] in
  dom (camera_data a) = active_cameras a
  /\ dom (camera_queues (camera_manager a)) = active_cameras a
  /\ get_camera_status a = camera_data a.
Proof.
  apply (agent_cameras_in_step (Some sample_detector) (Some sample_tracker)
           10). lia.
Defined.

Lemma add_feed_then_remove_witness :
  let a := run_agent (new_agent (Some sample_detector) (Some sample_tracker) 10)
             [AddFeed "cam1" "rtsp://cam1" (12.97, 77.59)%Q (Some tt)] in
  remove_camera_feed (add_camera_feed a "cam2" "rtsp://cam2" (0, 0)%Q None).2
    "cam2" = a.
Proof.
  apply (add_feed_then_remove (Some sample_detector) (Some sample_tracker) 10
           [AddFeed "cam1" "rtsp://cam1" (12.97, 77.59)%Q (Some tt)]
           "cam2" "rtsp://cam2" (0, 0)%Q None).
  - lia.
  - vm_compute. intros H. discriminate H.
Defined.

End AgentCameraFacts.

(** ** Factors, distances and the default weather *)

Module FactorBounds.
Import RouteOptimizationAgent.

Section WeatherBounds.
Context `{!Py.CaseMapping}.
Open Scope Q_scope.

Lemma condition_factors_get_le_3 (k : string) :
  Py.get condition_factors k 1.0 <= 3.0.
Proof.
  unfold Py.get. destruct (condition_factors !! k) as [v|] eqn:Hk; cbn.
  - apply elem_of_list_to_map_2 in Hk.
    change (v <= 3.0) with ((k, v).2 <= 3.0). revert Hk. generalize (k, v).
    apply Forall_forall.
    repeat (constructor; [cbn; discriminate|]). constructor.
  - discriminate.
Qed.

Lemma threshold_values_le_3 (w : weather_conditions) (c : Q) :
  Some c ∈ [precipitation_value w; wind_value w; visibility_value w;
            temperature_value w] ->
  c <= 3.0.
Proof.
  intros Hin.
  repeat (apply elem_of_cons in Hin as [Heq | Hin]);
    [..|by apply elem_of_nil in Hin].
  - unfold precipitation_value in Heq.
    repeat (destruct (gt _ _); [injection Heq as ->; discriminate|]). done.
  - unfold wind_value in Heq.
    repeat (destruct (gt _ _); [injection Heq as ->; discriminate|]). done.
  - unfold visibility_value in Heq.
    repeat (destruct (lt _ _); [injection Heq as ->; discriminate|]). done.
  - unfold temperature_value in Heq.
    destruct (_ || _); [injection Heq as ->; discriminate | done].
Qed.

(** The weather factor never exceeds 3.0, the value of a tornado: no
    combination of condition, precipitation, wind, visibility and
    temperature gives more. *)
Theorem weather_factor_at_most_3 (loc : Q * Q) (w : weather_conditions) :
  _get_weather_factor loc w <= 3.0
  /\ _get_weather_factor loc
       {| wc_condition := Some "Tornado"; wc_precipitation := None;
          wc_wind_speed := None; wc_visibility := None;
          wc_temperature := None |} == 3.0.
Proof.
  split; [|by vm_compute].
  rewrite WeatherFacts.get_weather_factor_fold.
  set (l := omap _ _).
  destruct (WeatherFacts.running_max_greatest l (condition_base w))
    as [Hex Hall].
  set (f := fold_left Py.max l (condition_base w)) in *.
  assert (f <= 3.0) as Hf.
  { apply Exists_exists in Hex as (x & Hx & Hfx). rewrite Hfx.
    apply elem_of_cons in Hx as [-> | Hx].
    - apply condition_factors_get_le_3.
    - subst l. apply list_elem_of_omap in Hx as (o & Ho & ->).
      by eapply threshold_values_le_3. }
  destruct (PyFacts.max_cases 1.0 f) as [-> | ->]; [discriminate | done].
Qed.

(** [random] is not among the names of the module: [_get_current_weather]
    returns the default values for every location, whatever the random
    draws would be, and the weather factor of that record is 1.0. *)
Theorem current_weather_is_default (rnd : draws) (location : Q * Q)
    (now : nat) :
  _get_current_weather rnd location now
  = {| wr_condition := "clear"; wr_temperature := 22; wr_precipitation := 0;
       wr_wind_speed := 10; wr_humidity := 60; wr_visibility := 10;
       wr_timestamp := now |}
  /\ _get_weather_factor location
       (as_conditions (_get_current_weather rnd location now)) = 1.0.
Proof.
  assert (_get_current_weather rnd location now
          = {| wr_condition := "clear"; wr_temperature := 22;
               wr_precipitation := 0; wr_wind_speed := 10;
               wr_humidity := 60; wr_visibility := 10;
               wr_timestamp := now |}) as Hdefault.
  { unfold _get_current_weather.
    replace (Py.load_name module_names "random")
      with (@Py.Raised () (Py.NameError "random")) by (by vm_compute).
    reflexivity. }
  split; [exact Hdefault|]. rewrite Hdefault. by vm_compute.
Qed.

End WeatherBounds.

Section TrafficBounds.
Open Scope R_scope.

Lemma severity_factor_range (severity : string) :
  1 <= severity_factor severity <= 2.
Proof.
  unfold severity_factor.
  repeat (destruct (String.eqb severity _); [lra|]). lra.
Qed.

Lemma incident_product_range (start end_ : R * R)
    (incidents : list incident) :
  1 <= incident_product start end_ incidents <= 2 ^ length incidents.
Proof.
  induction incidents as [|inc incidents IH]; cbn [incident_product length].
  - cbn. lra.
  - change (2 ^ S (length incidents)) with (2 * 2 ^ length incidents).
    pose proof (severity_factor_range
                  (default "medium" (incident_severity inc))) as Hs.
    destruct (Rlt_dec _ _); nra.
Qed.

(** For a density that is not negative the traffic factor is at least
    1 + 1.5 * density, incidents can only raise it, each by a factor of at
    most 2; without incidents it is exactly 1 + 1.5 * density. *)
Theorem traffic_factor_bounds (start end_ : R * R)
    (conditions : traffic_conditions) :
  let density := default 0.5 (tc_density conditions) in
  let incidents := default [] (tc_incidents conditions) in
  0 <= density ->
  1 + 1.5 * density <= _get_traffic_factor start end_ conditions
  /\ _get_traffic_factor start end_ conditions
     <= (1 + 1.5 * density) * 2 ^ length incidents
  /\ (incidents = [] ->
      _get_traffic_factor start end_ conditions = 1 + 1.5 * density).
Proof.
  cbv zeta. intros Hd. unfold _get_traffic_factor.
  rewrite GeometryFacts.incident_fold_product.
  pose proof (incident_product_range start end_
                (default [] (tc_incidents conditions))) as Hp.
  set (p := incident_product _ _ _) in *.
  set (d := default 0.5 (tc_density conditions)) in *.
  rewrite Rmax_right by nra.
  split; [nra|]. split; [nra|].
  intros Hnone. subst p. rewrite Hnone. cbn. lra.
Qed.

(** The distance to a leg is never negative and vanishes at both ends of
    the leg. *)
Theorem distance_to_route_ends (start end_ point : R * R) :
  0 <= _distance_to_route start end_ point
  /\ _distance_to_route start end_ start = 0
  /\ _distance_to_route start end_ end_ = 0.
Proof.
  destruct start as [x1 y1], end_ as [x2 y2], point as [x0 y0].
  unfold _distance_to_route.
  assert (forall e, e = 0 -> sqrt e = 0) as Hsqrt
    by (intros e ->; apply sqrt_0).
  assert (x2 - x1 <> 0 \/ y2 - y1 <> 0 ->
          (x2 - x1) * (x2 - x1) + (y2 - y1) * (y2 - y1) <> 0) as Hden.
  { intros Hne Hsum. apply Rplus_sqr_eq_0 in Hsum as [Hx Hy].
    by destruct Hne. }
  split; [|split].
  - destruct (Req_dec_T (x2 - x1) 0);
      [destruct (Req_dec_T (y2 - y1) 0)|]; apply sqrt_pos.
  - replace (((x1 - x1) * (x2 - x1) + (y1 - y1) * (y2 - y1))
             / ((x2 - x1) * (x2 - x1) + (y2 - y1) * (y2 - y1)))
      with 0 by (unfold Rdiv; ring).
    rewrite (Rmin_right 1 0) by lra. rewrite (Rmax_left 0 0) by lra.
    destruct (Req_dec_T (x2 - x1) 0);
      [destruct (Req_dec_T (y2 - y1) 0)|]; apply Hsqrt; ring.
  - destruct (Req_dec_T (x2 - x1) 0) as [Hx | Hx];
      [destruct (Req_dec_T (y2 - y1) 0) as [Hy | Hy]|].
    + apply Hsqrt. nra.
    + replace (((x2 - x1) * (x2 - x1) + (y2 - y1) * (y2 - y1))
               / ((x2 - x1) * (x2 - x1) + (y2 - y1) * (y2 - y1)))
        with 1 by (field; apply Hden; by right).
      rewrite (Rmin_left 1 1) by lra. rewrite (Rmax_right 0 1) by lra.
      apply Hsqrt. ring.
    + replace (((x2 - x1) * (x2 - x1) + (y2 - y1) * (y2 - y1))
               / ((x2 - x1) * (x2 - x1) + (y2 - y1) * (y2 - y1)))
        with 1 by (field; apply Hden; by left).
      rewrite (Rmin_left 1 1) by lra. rewrite (Rmax_right 0 1) by lra.
      apply Hsqrt. ring.
Qed.

Lemma traffic_factor_bounds_witness :
  let conditions :=
    {| tc_density := Some 0.24;
       tc_incidents :=
         Some [{| incident_location := Some (0, 0);
                  incident_severity := Some "high" |}] |} in
  let density := default 0.5 (tc_density conditions) in
  let incidents := default [] (tc_incidents conditions) in
  1 + 1.5 * density <= _get_traffic_factor (0, 0) (1, 1) conditions
  /\ _get_traffic_factor (0, 0) (1, 1) conditions
     <= (1 + 1.5 * density) * 2 ^ length incidents
  /\ (incidents = [] ->
      _get_traffic_factor (0, 0) (1, 1) conditions = 1 + 1.5 * density).
Proof.
  apply (traffic_factor_bounds (0, 0) (1, 1)
           {| tc_density := Some 0.24;
              tc_incidents :=
                Some [{| incident_location := Some (0, 0);
                         incident_severity := Some "high" |}] |}).
  cbn. lra.
Defined.

End TrafficBounds.

End FactorBounds.

(** ** The distance matrix of the OR-tools optimiser *)

Module DistanceMatrixFacts.
Import OrToolsRouteOptimizer.

Section Matrix.
Variable haversine : location -> location -> Py.result Z.

(** A row that is returned has one entry per location, each the value of
    its entry computation. *)
Lemma matrix_row_returned i coord1 j rest row :
  matrix_row haversine i coord1 j rest = Py.Returned row ->
  length row = length rest
  /\ forall k coord2, rest !! k = Some coord2 ->
       exists d, row !! k = Some d
         /\ matrix_entry haversine i coord1 (j + k) coord2 = Py.Returned d.
Proof.
  revert j row. induction rest as [|c rest IH]; intros j row Hrow.
  - injection Hrow as <-. split; [done|]. intros k coord2 Hk. done.
  - cbn [matrix_row] in Hrow.
    destruct (matrix_entry haversine i coord1 j c) as [d| |] eqn:Hd;
      [|done|done].
    cbn [mbind result_bind Py.bind] in Hrow.
    destruct (matrix_row haversine i coord1 (S j) rest) as [row'| |] eqn:Hrest;
      [|done|done].
    cbn [mbind result_bind Py.bind] in Hrow. injection Hrow as <-.
    destruct (IH _ _ Hrest) as [Hlen Hentries].
    split; [cbn; by rewrite Hlen|].
    intros [|k] coord2 Hk.
    + injection Hk as <-. exists d. by rewrite Nat.add_0_r.
    + destruct (Hentries k coord2 Hk) as (d' & Hrow' & Hd').
      exists d'. split; [done|]. by rewrite <- Nat.add_succ_comm.
Qed.

(** A row that is not returned ends with the outcome of one of its entry
    computations. *)
Lemma matrix_row_failed i coord1 j rest :
  match matrix_row haversine i coord1 j rest with
  | Py.Returned _ => True
  | Py.Raised e =>
      exists k coord2, rest !! k = Some coord2
        /\ matrix_entry haversine i coord1 (j + k) coord2 = Py.Raised e
  | Py.OutOfFuel =>
      exists k coord2, rest !! k = Some coord2
        /\ matrix_entry haversine i coord1 (j + k) coord2 = Py.OutOfFuel
  end.
Proof.
  revert j. induction rest as [|c rest IH]; intros j; [done|].
  cbn [matrix_row].
  destruct (matrix_entry haversine i coord1 j c) as [d| |] eqn:Hd.
  - cbn [mbind result_bind Py.bind]. specialize (IH (S j)).
    destruct (matrix_row haversine i coord1 (S j) rest) as [row'| |];
      [done| |];
      destruct IH as (k & coord2 & Hk & Hentry);
      exists (S k), coord2; by rewrite <- Nat.add_succ_comm.
  - exists 0%nat, c. by rewrite Nat.add_0_r.
  - exists 0%nat, c. by rewrite Nat.add_0_r.
Qed.

Lemma matrix_rows_returned locations i rest rows :
  matrix_rows haversine locations i rest = Py.Returned rows ->
  length rows = length rest
  /\ forall k coord1, rest !! k = Some coord1 ->
       exists row, rows !! k = Some row
         /\ matrix_row haversine (i + k) coord1 0 locations = Py.Returned row.
Proof.
  revert i rows. induction rest as [|c rest IH]; intros i rows Hrows.
  - injection Hrows as <-. split; [done|]. intros k coord1 Hk. done.
  - cbn [matrix_rows] in Hrows.
    destruct (matrix_row haversine i c 0 locations) as [row| |] eqn:Hrow;
      [|done|done].
    cbn [mbind result_bind Py.bind] in Hrows.
    destruct (matrix_rows haversine locations (S i) rest) as [rows'| |]
      eqn:Hrest; [|done|done].
    cbn [mbind result_bind Py.bind] in Hrows. injection Hrows as <-.
    destruct (IH _ _ Hrest) as [Hlen Hentries].
    split; [cbn; by rewrite Hlen|].
    intros [|k] coord1 Hk.
    + injection Hk as <-. exists row. by rewrite Nat.add_0_r.
    + destruct (Hentries k coord1 Hk) as (row' & Hrow' & Hd').
      exists row'. split; [done|]. by rewrite <- Nat.add_succ_comm.
Qed.

Lemma matrix_rows_failed locations i rest :
  match matrix_rows haversine locations i rest with
  | Py.Returned _ => True
  | Py.Raised e =>
      exists k coord1, rest !! k = Some coord1
        /\ matrix_row haversine (i + k) coord1 0 locations = Py.Raised e
  | Py.OutOfFuel =>
      exists k coord1, rest !! k = Some coord1
        /\ matrix_row haversine (i + k) coord1 0 locations = Py.OutOfFuel
  end.
Proof.
  revert i. induction rest as [|c rest IH]; intros i; [done|].
  cbn [matrix_rows].
  destruct (matrix_row haversine i c 0 locations) as [row| |] eqn:Hrow.
  - cbn [mbind result_bind Py.bind]. specialize (IH (S i)).
    destruct (matrix_rows haversine locations (S i) rest) as [rows'| |];
      [done| |];
      destruct IH as (k & coord1 & Hk & Hentry);
      exists (S k), coord1; by rewrite <- Nat.add_succ_comm.
  - exists 0%nat, c. by rewrite Nat.add_0_r.
  - exists 0%nat, c. by rewrite Nat.add_0_r.
Qed.

Lemma matrix_entry_off_diagonal i coord1 j coord2 (r : Py.result Z) :
  matrix_entry haversine i coord1 j coord2 = r ->
  (forall d, r <> Py.Returned d) ->
  i <> j /\ haversine coord1 coord2 = r.
Proof.
  unfold matrix_entry. intros Hr Hfail.
  destruct (Nat.eqb_spec i j) as [->|Hij]; [|done].
  subst r. by destruct (Hfail 0%Z).
Qed.

(** [create_distance_matrix], whatever the nested [haversine_distance]
    does.  When a matrix is returned it has one row per location and one
    entry per location in every row; entry [i][j] is 0 on the diagonal and
    what the nested function returns for the locations [i] and [j]
    elsewhere, so the matrix is symmetric when the nested function is.
    When the nested function raises for a pair of different places in the
    list, no matrix is returned: the exception leaves
    [create_distance_matrix].  The diagonal never calls the nested
    function. *)
Theorem distance_matrix_entries (locations : list location) :
  match create_distance_matrix haversine locations with
  | Py.Returned matrix =>
      length matrix = length locations
      /\ Forall (fun row => length row = length locations) matrix
      /\ (forall i j coord1 coord2,
            locations !! i = Some coord1 -> locations !! j = Some coord2 ->
            exists row d,
              matrix !! i = Some row /\ row !! j = Some d
              /\ (i = j -> d = 0%Z)
              /\ (i <> j -> haversine coord1 coord2 = Py.Returned d))
      /\ ((forall coord1 coord2,
             haversine coord1 coord2 = haversine coord2 coord1) ->
          forall i j row_i row_j d,
            matrix !! i = Some row_i -> matrix !! j = Some row_j ->
            row_i !! j = Some d -> row_j !! i = Some d)
  | Py.Raised e =>
      exists i j coord1 coord2,
        i <> j /\ locations !! i = Some coord1 /\ locations !! j = Some coord2
        /\ haversine coord1 coord2 = Py.Raised e
  | Py.OutOfFuel =>
      exists i j coord1 coord2,
        i <> j /\ locations !! i = Some coord1 /\ locations !! j = Some coord2
        /\ haversine coord1 coord2 = Py.OutOfFuel
  end.
Proof.
  unfold create_distance_matrix.
  pose proof (matrix_rows_failed locations 0 locations) as Hfailed.
  destruct (matrix_rows haversine locations 0 locations) as [matrix|e|]
    eqn:Hrows.
  - clear Hfailed. apply matrix_rows_returned in Hrows as [Hlen Hrows].
    assert (forall i j coord1 coord2,
              locations !! i = Some coord1 -> locations !! j = Some coord2 ->
              exists row d,
                matrix !! i = Some row /\ row !! j = Some d
                /\ (i = j -> d = 0%Z)
                /\ (i <> j -> haversine coord1 coord2 = Py.Returned d))
      as Hentries.
    { intros i j coord1 coord2 Hi Hj.
      destruct (Hrows i coord1 Hi) as (row & Hrow & Hbuilt).
      apply matrix_row_returned in Hbuilt as [_ Hbuilt].
      destruct (Hbuilt j coord2 Hj) as (d & Hd & Hentry).
      exists row, d. split; [done|]. split; [done|].
      unfold matrix_entry in Hentry. cbn in Hentry.
      destruct (Nat.eqb_spec i j) as [->|Hij].
      - injection Hentry as <-. done.
      - done. }
    split; [done|]. split; [|split; [done|]].
    + apply Forall_forall. intros row Hrow.
      apply list_elem_of_lookup in Hrow as [i Hi].
      assert (i < length locations)%nat as Hbound.
      { rewrite <- Hlen. by eapply lookup_lt_Some. }
      apply lookup_lt_is_Some in Hbound as [coord1 Hcoord1].
      destruct (Hrows i coord1 Hcoord1) as (row' & Hrow' & Hbuilt).
      cbn in Hrow'. rewrite Hi in Hrow'. injection Hrow' as <-.
      by apply matrix_row_returned in Hbuilt as [Hlength _].
    + intros Hsym i j row_i row_j d Hi Hj Hd.
      assert (i < length locations)%nat as Hbound_i.
      { rewrite <- Hlen. by eapply lookup_lt_Some. }
      assert (j < length locations)%nat as Hbound_j.
      { rewrite <- Hlen. by eapply lookup_lt_Some. }
      apply lookup_lt_is_Some in Hbound_i as [coord1 Hcoord1].
      apply lookup_lt_is_Some in Hbound_j as [coord2 Hcoord2].
      destruct (Hentries i j coord1 coord2 Hcoord1 Hcoord2)
        as (row & d1 & Hrow & Hd1 & Hdiag1 & Hoff1).
      destruct (Hentries j i coord2 coord1 Hcoord2 Hcoord1)
        as (row' & d2 & Hrow' & Hd2 & Hdiag2 & Hoff2).
      rewrite Hi in Hrow. injection Hrow as <-.
      rewrite Hj in Hrow'. injection Hrow' as <-.
      rewrite Hd in Hd1. injection Hd1 as <-. rewrite Hd2. f_equal.
      destruct (decide (i = j)) as [->|Hij].
      * rewrite (Hdiag1 eq_refl). by apply Hdiag2.
      * specialize (Hoff1 Hij). rewrite Hsym in Hoff1.
        rewrite Hoff2 in Hoff1 by done. by injection Hoff1.
  - destruct Hfailed as (i & coord1 & Hi & Hrow).
    pose proof (matrix_row_failed i coord1 0 locations) as Hentry.
    cbn in Hrow. rewrite Hrow in Hentry.
    destruct Hentry as (j & coord2 & Hj & Hentry). cbn in Hentry.
    apply matrix_entry_off_diagonal in Hentry as [Hij Hcall]; [|done].
    by exists i, j, coord1, coord2.
  - destruct Hfailed as (i & coord1 & Hi & Hrow).
    pose proof (matrix_row_failed i coord1 0 locations) as Hentry.
    cbn in Hrow. rewrite Hrow in Hentry.
    destruct Hentry as (j & coord2 & Hj & Hentry). cbn in Hentry.
    apply matrix_entry_off_diagonal in Hentry as [Hij Hcall]; [|done].
    by exists i, j, coord1, coord2.
Qed.

End Matrix.

End DistanceMatrixFacts.

(** ** Edge weights of the road graph *)

Module RouteGraphBuilderFacts.
Import RouteGraphBuilder.
Open Scope Q_scope.

Lemma vehicle_factor_at_least_1 (k : string) :
  1 <= Py.get vehicle_factors k 1.0.
Proof.
  unfold Py.get, vehicle_factors.
  repeat (rewrite lookup_insert; case_decide; [cbn; discriminate|]).
  rewrite lookup_singleton. case_decide; cbn; discriminate.
Qed.

(** For an edge with a length that is not negative, a positive speed limit
    and a traffic factor of at least 1, the weight is computed (no division
    by zero), it is at least the base time, and the base time is at least
    the time the edge takes at 100 km/h (0.036 s per metre).  A speed limit
    of zero makes the computation raise [ZeroDivisionError]. *)
Theorem edge_weight_at_least_base_time `{!Py.CaseMapping}
    (vehicle_type time_of_day : string)
    (length maxspeed traffic_factor : Q) :
  (0 <= length -> 0 < maxspeed -> 1 <= traffic_factor ->
   exists weight base_time,
     edge_weight vehicle_type time_of_day
       {| edge_length := Some length; edge_maxspeed := maxspeed;
          edge_traffic_factor := Some traffic_factor |}
     = Py.Returned (weight, base_time)
     /\ base_time <= weight
     /\ length * 0.036 <= base_time)
  /\ edge_weight vehicle_type time_of_day
       {| edge_length := Some length; edge_maxspeed := 0;
          edge_traffic_factor := Some traffic_factor |}
     = Py.Raised Py.ZeroDivisionError.
Proof.
  split; [|reflexivity].
  intros Hlen Hspeed Htraffic. unfold edge_weight.
  cbn [edge_length edge_maxspeed edge_traffic_factor default from_option].
  unfold Datatypes.id.
  pose proof (vehicle_factor_at_least_1 (Py.lower vehicle_type)) as Hv.
  set (vf := Py.get vehicle_factors (Py.lower vehicle_type) 1.0) in *.
  assert (0 < Py.min maxspeed 100 /\ Py.min maxspeed 100 <= 100)
    as [Hpos Hcap].
  { unfold Py.min. destruct (Qlt_le_dec 100 maxspeed); split; lra. }
  set (speed := Py.min maxspeed 100) in *.
  destruct (Qeq_bool speed 0) eqn:Hzero.
  { apply Qeq_bool_iff in Hzero. lra. }
  do 2 eexists. split; [reflexivity|].
  set (base := length / 1000 / speed * 3600).
  assert (base * speed == length * 3.6) as Hbase.
  { unfold base. field. lra. }
  assert (0 <= base) as Hb0 by nra.
  assert (length * 0.036 <= base) as Hlow by nra.
  split; [|done].
  assert (1 <= (if String.eqb time_of_day "day" then 1.2 else 1.0)) as Ht
    by (destruct (String.eqb _ _); lra).
  set (tf := if String.eqb time_of_day "day" then 1.2 else 1.0) in *.
  assert (base <= base * traffic_factor) by nra.
  assert (base * traffic_factor <= base * traffic_factor * tf) by nra.
  assert (base * traffic_factor * tf <= base * traffic_factor * tf * vf)
    by nra.
  unfold Datatypes.id. fold base. lra.
Qed.

End RouteGraphBuilderFacts.

